(** * Finance_Chatbot: the query-parsing and function-dispatch pipeline

    A shallow embedding of [src/chatbot_app.py] (class [FinancialAdvisorBot]):
    the calculators, the ticker and parameter extractors, the keyword router
    [parse_financial_query] and the turn driver [process_query], followed by
    the properties of the specification that concern them.

    Conventions of the embedding.
    - A Python [float] is a binary64 number: Rocq's primitive [float], whose
      operations are the IEEE 754 ones the interpreter uses.
    - A Python [int] is a [Z]. The calculators take the types their
      docstrings give: amounts and rates are floats, years and ages ints.
    - A Python [str] is a [string], a sequence of 8-bit characters. The
      character functions ([upper], [lower], [isalnum], [isalpha], [isspace])
      are Python's on the ASCII range (codes below 128), and leave every
      other character alone: the embedding stands for the source on ASCII
      text. A property that depends on what these functions do to a character
      is stated for the strings of [is_ascii].
    - A [try: ... except Exception] block is a computation in the error monad
      [exc] whose failure is mapped to the value the handler returns.
    - [self.conversation_history] is threaded explicitly: a method that
      mutates it takes the transcript and returns the new one.
    - What the network answers (the chat-completion endpoint) is an input of
      the method that asks. *)

From Stdlib Require Import Floats ZArith Ascii String.
From stdpp Require Import base option list gmap strings.

Local Open Scope Z_scope.

(** ** Exceptions and the error monad *)

(** A raised exception: its class and the text [str(e)] gives. *)
Record exn := Exn { exn_class : string; exn_text : string }.

Inductive exc (A : Type) : Type :=
| Ok (a : A)
| Raise (e : exn).
Arguments Ok {A} a.
Arguments Raise {A} e.

Definition exc_bind {A B : Type} (c : exc A) (k : A -> exc B) : exc B :=
  match c with
  | Ok a => k a
  | Raise e => Raise e
  end.

Notation "x <-- c ;; k" := (exc_bind c (fun x => k))
  (at level 100, c at next level, right associativity).

Definition ZeroDivisionError (text : string) : exn := Exn "ZeroDivisionError" text.
Definition OverflowError (text : string) : exn := Exn "OverflowError" text.
Definition TypeError (text : string) : exn := Exn "TypeError" text.
Definition ValueError (text : string) : exn := Exn "ValueError" text.
Definition AttributeError (text : string) : exn := Exn "AttributeError" text.

(** The shared result shape of the calculators:
    [{"status": "success", "data": ...}] or
    [{"status": "error", "message": ...}]. *)
Inductive calc_result (D : Type) : Type :=
| Success (data : D)
| Error (message : string).
Arguments Success {D} data.
Arguments Error {D} message.

(** [try: body  except Exception as e: return {"status": "error",
    "message": f"<prefix>{str(e)}"}]. *)
Definition try_except {D : Type} (prefix : string) (body : exc D) : calc_result D :=
  match body with
  | Ok d => Success d
  | Raise e => Error (prefix +:+ exn_text e)
  end.

Definition is_success {D : Type} (r : calc_result D) : bool :=
  match r with
  | Success _ => true
  | Error _ => false
  end.

(** ** Python floats *)

Module PyFloat.

Local Open Scope float_scope.

(** [x == 0] for a float [x] (true of both zeros, false of NaN). *)
Definition is_zero (x : float) : bool := PrimFloat.eqb x 0.

(** Neither an infinity nor NaN. *)
Definition is_finite (x : float) : bool :=
  match Prim2SF x with
  | S754_zero _ | S754_finite _ _ _ => true
  | S754_infinity _ | S754_nan => false
  end.

(** [x / y]: Python raises where IEEE returns an infinity or NaN. *)
Definition div (x y : float) : exc float :=
  if is_zero y then Raise (ZeroDivisionError "float division by zero")
  else Ok (x / y).

(** [float(n)] for an int [n]: the nearest binary64 number (ties to even),
    [OverflowError] when that is out of range. *)
Definition of_Z (n : Z) : exc float :=
  let x := SF2Prim (binary_normalize prec emax n 0 false) in
  if is_finite x then Ok x
  else Raise (OverflowError "int too large to convert to float").

(** [int(x)] for a float [x]: truncation towards zero. *)
Definition to_Z (x : float) : exc Z :=
  match Prim2SF x with
  | S754_zero _ => Ok 0%Z
  | S754_finite s m e =>
      let a := (if (0 <=? e)%Z then Z.shiftl (Z.pos m) e
                else Z.shiftr (Z.pos m) (- e))%Z in
      Ok (if s then (- a)%Z else a)
  | S754_infinity _ => Raise (OverflowError "cannot convert float infinity to integer")
  | S754_nan => Raise (ValueError "cannot convert float NaN to integer")
  end.

(** [max(0, x)]: [x] when [x > 0], else the first argument [0]. *)
Definition max0 (x : float) : float := if 0 <? x then x else 0.

(** [x] is the finite number [y], up to the sign of a zero: the two are
    equal under [==]. *)
Definition same_number (x y : float) : Prop :=
  is_finite y = true /\
  (Prim2SF x = Prim2SF y \/ (is_zero x = true /\ is_zero y = true)).

End PyFloat.


(** ** Python strings (ASCII range)

    The character functions below agree with [str.isalpha], [str.isalnum],
    [str.isspace], [str.upper] and [str.lower] on the characters whose code
    is below 128. Python's functions follow the Unicode tables beyond that
    range (other letters, other spaces, characters whose upper-case form is
    an ASCII letter); these functions treat such a character as one that is
    neither a letter, a digit nor a space, and do not change its case. *)

Module PyStr.

Local Open Scope N_scope.

Definition code (c : ascii) : N := N_of_ascii c.

Definition is_upper_char (c : ascii) : bool := (65 <=? code c) && (code c <=? 90).
Definition is_lower_char (c : ascii) : bool := (97 <=? code c) && (code c <=? 122).
Definition is_digit_char (c : ascii) : bool := (48 <=? code c) && (code c <=? 57).

(** [c.isalpha()], [c.isalnum()], [c.isspace()]. *)
Definition isalpha_char (c : ascii) : bool := is_upper_char c || is_lower_char c.
Definition isalnum_char (c : ascii) : bool := isalpha_char c || is_digit_char c.
Definition isspace_char (c : ascii) : bool :=
  ((9 <=? code c) && (code c <=? 13)) || ((28 <=? code c) && (code c <=? 32)).

Definition upper_char (c : ascii) : ascii :=
  if is_lower_char c then ascii_of_N (code c - 32) else c.
Definition lower_char (c : ascii) : ascii :=
  if is_upper_char c then ascii_of_N (code c + 32) else c.

Fixpoint map_chars (f : ascii -> ascii) (s : string) : string :=
  match s with
  | EmptyString => EmptyString
  | String c s' => String (f c) (map_chars f s')
  end.

(** [''.join(c for c in s if p(c))]. *)
Fixpoint filter_chars (p : ascii -> bool) (s : string) : string :=
  match s with
  | EmptyString => EmptyString
  | String c s' => if p c then String c (filter_chars p s') else filter_chars p s'
  end.

Fixpoint all_chars (p : ascii -> bool) (s : string) : bool :=
  match s with
  | EmptyString => true
  | String c s' => p c && all_chars p s'
  end.

Definition is_empty (s : string) : bool :=
  match s with
  | EmptyString => true
  | String _ _ => false
  end.

(** [s.upper()], [s.lower()]. *)
Definition upper (s : string) : string := map_chars upper_char s.
Definition lower (s : string) : string := map_chars lower_char s.

(** [s.isalpha()]: at least one character, and all of them letters. *)
Definition isalpha (s : string) : bool := negb (is_empty s) && all_chars isalpha_char s.

(** [len(s)]. *)
Definition len (s : string) : Z := Z.of_nat (String.length s).

(** [s.split()]: the maximal runs of non-whitespace characters, in order.
    [word] is the run being read. *)
Fixpoint split_from (s : string) (word : string) : list string :=
  match s with
  | EmptyString => if is_empty word then [] else [word]
  | String c s' =>
      if isspace_char c
      then (if is_empty word then split_from s' EmptyString
            else word :: split_from s' EmptyString)
      else split_from s' (word +:+ String c EmptyString)
  end.

Definition split (s : string) : list string := split_from s EmptyString.

(** [keyword in text]: [keyword] occurs in [text] as a substring. *)
Fixpoint contains (text keyword : string) : bool :=
  String.prefix keyword text ||
  match text with
  | EmptyString => false
  | String _ text' => contains text' keyword
  end.

(** [s1 == s2]. *)
Definition eqb (s1 s2 : string) : bool := String.eqb s1 s2.

End PyStr.

(** ** Ticker extraction ([_extract_ticker_symbols], lines 502-516)

    With the character functions of [PyStr]: the method on an ASCII query. *)

(** The body of [for word in words]: clean the word, append it when it
    passes the test. *)
Definition ticker_step (potential_tickers : list string) (word : string) : list string :=
  let word := PyStr.filter_chars PyStr.isalnum_char word in
  if PyStr.isalpha word && (PyStr.len word <=? 5) && PyStr.eqb word (PyStr.upper word)
  then potential_tickers ++ [word]
  else potential_tickers.

Definition _extract_ticker_symbols (query : string) : list string :=
  let words := PyStr.split (PyStr.upper query) in
  foldl ticker_step [] words.

(** ** Calculators *)

(** [x ** n] for a float [x] and an int [n] is the C library's [pow], whose
    rounding the source does not fix: the calculators take it as an
    interface. It raises [OverflowError] on overflow and
    [ZeroDivisionError] for [0.0 ** n] with [n] negative. *)
Class Libm := { float_pow : float -> Z -> exc float }.

(** *** Loan payment ([calculate_loan_payment], lines 105-169) *)

Record schedule_entry := {
  payment_number : Z;
  payment_amount : float;
  principal_paid : float;
  interest_paid : float;
  remaining_balance : float
}.

Record loan_data := {
  monthly_payment : float;
  total_payments : Z;
  total_cost : float;
  total_interest : float;
  interest_rate_monthly : float;
  schedule : list schedule_entry
}.

(** The entry of payment [i], from the balance before it. *)
Definition loan_entry (monthly_payment monthly_rate : float) (balance : float) (i : Z)
  : float * schedule_entry :=
  let interest_payment := (balance * monthly_rate)%float in
  let principal_payment := (monthly_payment - interest_payment)%float in
  let balance := (balance - principal_payment)%float in
  (balance,
   {| payment_number := i;
      payment_amount := monthly_payment;
      principal_paid := principal_payment;
      interest_paid := interest_payment;
      remaining_balance := PyFloat.max0 balance |}).

(** First year, yearly thereafter, and last payment. *)
Definition loan_keeps (n_payments i : Z) : bool :=
  (i <=? 12) || (i mod 12 =? 0) || (i =? n_payments).

(** The body of [for i in range(1, n_payments + 1)]; the state is
    [(balance, schedule)]. *)
Definition loan_step (monthly_payment monthly_rate : float) (n_payments : Z)
    (st : float * list schedule_entry) (i : Z) : float * list schedule_entry :=
  let '(balance, entry) := loan_entry monthly_payment monthly_rate st.1 i in
  (balance, if loan_keeps n_payments i then st.2 ++ [entry] else st.2).

(** The monthly payment (lines 119-128). *)
Definition loan_monthly_payment `{Libm} (principal monthly_rate : float) (n_payments : Z)
  : exc float :=
  if PyFloat.is_zero monthly_rate
  then n <-- PyFloat.of_Z n_payments ;; PyFloat.div principal n
  else
    p1 <-- float_pow (1 + monthly_rate)%float n_payments ;;
    p2 <-- float_pow (1 + monthly_rate)%float n_payments ;;
    PyFloat.div (principal * (monthly_rate * p1))%float (p2 - 1)%float.

Definition calculate_loan_payment `{Libm} (principal interest_rate : float) (years : Z)
  : calc_result loan_data :=
  try_except "Failed to calculate loan payment: "
    (let monthly_rate := (interest_rate / 100 / 12)%float in
     let n_payments := years * 12 in
     monthly_payment <-- loan_monthly_payment principal monthly_rate n_payments ;;
     n <-- PyFloat.of_Z n_payments ;;
     let total_cost := (monthly_payment * n)%float in
     let total_interest := (total_cost - principal)%float in
     let st := foldl (loan_step monthly_payment monthly_rate n_payments)
                     (principal, []) (seqZ 1 n_payments) in
     Ok {| monthly_payment := monthly_payment;
           total_payments := n_payments;
           total_cost := total_cost;
           total_interest := total_interest;
           interest_rate_monthly := monthly_rate;
           schedule := take 10 st.2 |}).

(** *** Investment growth ([calculate_investment_growth], lines 171-235) *)

Record investment_data := {
  final_balance : float;
  total_contributions : float;
  investment_total_interest : float;
  yearly_balances : list (Z * float);
  yearly_contributions : list (Z * float);
  yearly_interests : list (Z * float)
}.

(** The loop state: the running [balance], [total_contribution] and
    [total_interest], and the three lists of yearly snapshots. *)
Record investment_state := {
  st_balance : float;
  st_total_contribution : float;
  st_total_interest : float;
  st_balances : list (Z * float);
  st_contributions : list (Z * float);
  st_interests : list (Z * float)
}.

(** The body of [for i in range(1, n_months + 1)]. *)
Definition investment_step (monthly_contribution monthly_rate : float)
    (st : investment_state) (i : Z) : investment_state :=
  let balance := (st_balance st + monthly_contribution)%float in
  let total_contribution := (st_total_contribution st + monthly_contribution)%float in
  let interest := (balance * monthly_rate)%float in
  let balance := (balance + interest)%float in
  let total_interest := (st_total_interest st + interest)%float in
  if i mod 12 =? 0
  then
    let year := i / 12 in
    {| st_balance := balance;
       st_total_contribution := total_contribution;
       st_total_interest := total_interest;
       st_balances := st_balances st ++ [(year, balance)];
       st_contributions := st_contributions st ++ [(year, total_contribution)];
       st_interests := st_interests st ++ [(year, total_interest)] |}
  else
    {| st_balance := balance;
       st_total_contribution := total_contribution;
       st_total_interest := total_interest;
       st_balances := st_balances st;
       st_contributions := st_contributions st;
       st_interests := st_interests st |}.

Definition calculate_investment_growth
    (initial_investment monthly_contribution annual_return : float) (years : Z)
  : calc_result investment_data :=
  try_except "Failed to calculate investment growth: "
    (let monthly_rate := (annual_return / 100 / 12)%float in
     let n_months := years * 12 in
     let st := foldl (investment_step monthly_contribution monthly_rate)
                     {| st_balance := initial_investment;
                        st_total_contribution := initial_investment;
                        st_total_interest := 0%float;
                        st_balances := [];
                        st_contributions := [];
                        st_interests := [] |}
                     (seqZ 1 n_months) in
     Ok {| final_balance := st_balance st;
           total_contributions := st_total_contribution st;
           investment_total_interest := st_total_interest st;
           yearly_balances := st_balances st;
           yearly_contributions := st_contributions st;
           yearly_interests := st_interests st |}).

(** *** Retirement needs ([calculate_retirement_needs], lines 237-308) *)

Record retirement_data := {
  years_to_retirement : Z;
  years_in_retirement : Z;
  future_annual_expenses : float;
  retirement_corpus_needed : float;
  future_value_current_savings : float;
  future_value_contributions : float;
  total_future_value : float;
  shortfall_or_surplus : float;
  is_surplus : bool;
  required_monthly_contribution : float
}.

Definition calculate_retirement_needs `{Libm}
    (current_age retirement_age life_expectancy : Z)
    (annual_expenses inflation_rate current_savings monthly_contribution
       expected_return : float)
  : calc_result retirement_data :=
  try_except "Failed to calculate retirement needs: "
    (let years_to_retirement := retirement_age - current_age in
     let years_in_retirement := life_expectancy - retirement_age in
     inflation <-- float_pow (1 + inflation_rate / 100)%float years_to_retirement ;;
     let future_annual_expenses := (annual_expenses * inflation)%float in
     let retirement_corpus_needed := (future_annual_expenses * 25)%float in
     let monthly_rate := (expected_return / 100 / 12)%float in
     let n_months := years_to_retirement * 12 in
     growth <-- float_pow (1 + monthly_rate)%float n_months ;;
     let future_value_current_savings := (current_savings * growth)%float in
     growth' <-- float_pow (1 + monthly_rate)%float n_months ;;
     annuity <-- PyFloat.div (monthly_contribution * (growth' - 1))%float monthly_rate ;;
     let future_value_contributions := (annuity * (1 + monthly_rate))%float in
     let total_future_value :=
       (future_value_current_savings + future_value_contributions)%float in
     let shortfall := (retirement_corpus_needed - total_future_value)%float in
     required_monthly <--
       (if (0 <? shortfall)%float
        then
          growth'' <-- float_pow (1 + monthly_rate)%float n_months ;;
          extra <-- PyFloat.div (shortfall * monthly_rate)%float (growth'' - 1)%float ;;
          Ok (monthly_contribution + extra)%float
        else Ok monthly_contribution) ;;
     Ok {| years_to_retirement := years_to_retirement;
           years_in_retirement := years_in_retirement;
           future_annual_expenses := future_annual_expenses;
           retirement_corpus_needed := retirement_corpus_needed;
           future_value_current_savings := future_value_current_savings;
           future_value_contributions := future_value_contributions;
           total_future_value := total_future_value;
           shortfall_or_surplus :=
             (if (shortfall <? 0)%float then (- shortfall)%float else shortfall);
           is_surplus := (shortfall <? 0)%float;
           required_monthly_contribution := required_monthly |}).

(** ** Parsed JSON and the conversions applied to it *)

(** What [json.loads] returns: [None], a [bool], an [int], a [float], a
    [str], a [list] or a [dict] with string keys. *)
#[local] Set Warnings "-register-all".
Inductive json : Type :=
| JNull
| JBool (b : bool)
| JInt (n : Z)
| JFloat (x : float)
| JString (s : string)
| JArray (items : list json)
| JObject (fields : gmap string json).
#[local] Set Warnings "register-all".

(** [float(s)] and [int(s)] for a string [s] are the interpreter's parsers
    of numeric literals; the extractors take them as an interface. *)
Class Builtins := {
  float_of_str : string -> exc float;
  int_of_str : string -> exc Z
}.

Module Py.

(** [bool(v)]: the truth value tested by [if v] and [v and w]. *)
Definition truthy (v : json) : bool :=
  match v with
  | JNull => false
  | JBool b => b
  | JInt n => negb (n =? 0)
  | JFloat x => negb (PyFloat.is_zero x)
  | JString s => negb (PyStr.is_empty s)
  | JArray items => match items with [] => false | _ :: _ => true end
  | JObject fields => negb (bool_decide (fields = ∅))
  end.

(** [v is not None]. *)
Definition is_not_none (v : json) : bool :=
  match v with
  | JNull => false
  | _ => true
  end.

(** [float(v)]. *)
Definition float `{Builtins} (v : json) : exc float :=
  match v with
  | JNull => Raise (TypeError "float() argument must be a string or a real number, not 'NoneType'")
  | JBool b => Ok (if b then 1%float else 0%float)
  | JInt n => PyFloat.of_Z n
  | JFloat x => Ok x
  | JString s => float_of_str s
  | JArray _ => Raise (TypeError "float() argument must be a string or a real number, not 'list'")
  | JObject _ => Raise (TypeError "float() argument must be a string or a real number, not 'dict'")
  end.

(** [int(v)]. *)
Definition int `{Builtins} (v : json) : exc Z :=
  match v with
  | JNull => Raise (TypeError "int() argument must be a string, a bytes-like object or a real number, not 'NoneType'")
  | JBool b => Ok (if b then 1 else 0)
  | JInt n => Ok n
  | JFloat x => PyFloat.to_Z x
  | JString s => int_of_str s
  | JArray _ => Raise (TypeError "int() argument must be a string, a bytes-like object or a real number, not 'list'")
  | JObject _ => Raise (TypeError "int() argument must be a string, a bytes-like object or a real number, not 'dict'")
  end.

(** [params.get(key, default)]; [params.get(key)] is [get params key JNull]. *)
Definition get (params : json) (key : string) (d : json) : exc json :=
  match params with
  | JObject fields => Ok (default d (fields !! key))
  | _ => Raise (AttributeError "object has no attribute 'get'")
  end.

(** [params[key]]. *)
Definition item (params : json) (key : string) : exc json :=
  match params with
  | JObject fields =>
      match fields !! key with
      | Some v => Ok v
      | None => Raise (Exn "KeyError" key)
      end
  | _ => Raise (TypeError "indices must be integers or slices, not str")
  end.

End Py.

(** ** The chat-completion endpoint *)

(** What a request to the endpoint comes to, as the methods read it:
    [requests.post(...)] or [response.json()] raises; or the decoded body has
    no ["choices"] key or an empty list under it; or
    [response_data["choices"][0]["message"]["content"]] is [content].

    For the chat calls [content] is the text. For the extraction calls it is
    what [json.loads] makes of the text, stripped and cut from its first
    opening brace to its last closing one: a parsed value, or the exception
    of a text that is not JSON. *)
Inductive llm_reply (C : Type) : Type :=
| Raises (e : exn)
| NoChoices
| FirstChoice (content : C).
Arguments Raises {C} e.
Arguments NoChoices {C}.
Arguments FirstChoice {C} content.

(** ** Parameter extractors *)

Module LoanParams.
Record t := { principal : float; interest_rate : float; years : Z }.
End LoanParams.

Module InvestmentParams.
Record t := {
  initial_investment : float;
  monthly_contribution : float;
  annual_return : float;
  years : Z
}.
End InvestmentParams.

Module RetirementParams.
Record t := {
  current_age : Z;
  retirement_age : Z;
  life_expectancy : Z;
  annual_expenses : float;
  inflation_rate : float;
  current_savings : float;
  monthly_contribution : float;
  expected_return : float
}.
End RetirementParams.

Module BudgetParams.
Record t := { income : float; expenses_dict : json }.
End BudgetParams.

(** [try: ... return <params or None>  except Exception: return None]. *)
Definition except_none {A : Type} (body : exc (option A)) : option A :=
  match body with
  | Ok r => r
  | Raise _ => None
  end.

(** [float(params[key])] and [int(params[key])]. *)
Definition float_item `{Builtins} (params : json) (key : string) : exc float :=
  v <-- Py.item params key ;; Py.float v.
Definition int_item `{Builtins} (params : json) (key : string) : exc Z :=
  v <-- Py.item params key ;; Py.int v.

(** [float(params.get(key, d))] and [int(params.get(key, d))]. *)
Definition float_get `{Builtins} (params : json) (key : string) (d : json) : exc float :=
  v <-- Py.get params key d ;; Py.float v.
Definition int_get `{Builtins} (params : json) (key : string) (d : json) : exc Z :=
  v <-- Py.get params key d ;; Py.int v.

Section Extractors.

Context `{Builtins}.

(** [_extract_loan_parameters] (lines 518-569). *)
Definition _extract_loan_parameters (query : string) (reply : llm_reply (exc json))
  : option LoanParams.t :=
  except_none
    match reply with
    | Raises e => Raise e
    | NoChoices => Ok None
    | FirstChoice content =>
        params <-- content ;;
        principal <-- Py.get params "principal" JNull ;;
        interest_rate <-- Py.get params "interest_rate" JNull ;;
        years <-- Py.get params "years" JNull ;;
        if Py.truthy principal && Py.truthy interest_rate && Py.truthy years
        then
          principal <-- float_item params "principal" ;;
          interest_rate <-- float_item params "interest_rate" ;;
          years <-- int_item params "years" ;;
          Ok (Some {| LoanParams.principal := principal;
                      LoanParams.interest_rate := interest_rate;
                      LoanParams.years := years |})
        else Ok None
    end.

(** [_extract_investment_parameters] (lines 571-626). *)
Definition _extract_investment_parameters (query : string) (reply : llm_reply (exc json))
  : option InvestmentParams.t :=
  except_none
    match reply with
    | Raises e => Raise e
    | NoChoices => Ok None
    | FirstChoice content =>
        params <-- content ;;
        initial_investment <-- Py.get params "initial_investment" JNull ;;
        monthly_contribution <-- Py.get params "monthly_contribution" JNull ;;
        annual_return <-- Py.get params "annual_return" JNull ;;
        years <-- Py.get params "years" JNull ;;
        if Py.is_not_none initial_investment && Py.is_not_none monthly_contribution
           && Py.is_not_none annual_return && Py.is_not_none years
        then
          initial_investment <-- float_item params "initial_investment" ;;
          monthly_contribution <-- float_item params "monthly_contribution" ;;
          annual_return <-- float_item params "annual_return" ;;
          years <-- int_item params "years" ;;
          Ok (Some {| InvestmentParams.initial_investment := initial_investment;
                      InvestmentParams.monthly_contribution := monthly_contribution;
                      InvestmentParams.annual_return := annual_return;
                      InvestmentParams.years := years |})
        else Ok None
    end.

(** [_extract_retirement_parameters] (lines 628-686). *)
Definition _extract_retirement_parameters (query : string) (reply : llm_reply (exc json))
  : option RetirementParams.t :=
  except_none
    match reply with
    | Raises e => Raise e
    | NoChoices => Ok None
    | FirstChoice content =>
        params <-- content ;;
        current_age <-- int_get params "current_age" (JInt 30) ;;
        retirement_age <-- int_get params "retirement_age" (JInt 65) ;;
        life_expectancy <-- int_get params "life_expectancy" (JInt 90) ;;
        annual_expenses <-- float_get params "annual_expenses" (JInt 50000) ;;
        inflation_rate <-- float_get params "inflation_rate" (JFloat 2.5) ;;
        current_savings <-- float_get params "current_savings" (JInt 0) ;;
        monthly_contribution <-- float_get params "monthly_contribution" (JInt 500) ;;
        expected_return <-- float_get params "expected_return" (JInt 7) ;;
        Ok (Some {| RetirementParams.current_age := current_age;
                    RetirementParams.retirement_age := retirement_age;
                    RetirementParams.life_expectancy := life_expectancy;
                    RetirementParams.annual_expenses := annual_expenses;
                    RetirementParams.inflation_rate := inflation_rate;
                    RetirementParams.current_savings := current_savings;
                    RetirementParams.monthly_contribution := monthly_contribution;
                    RetirementParams.expected_return := expected_return |})
    end.

(** [_extract_budget_parameters] (lines 688-749). *)
Definition _extract_budget_parameters (query : string) (reply : llm_reply (exc json))
  : option BudgetParams.t :=
  except_none
    match reply with
    | Raises e => Raise e
    | NoChoices => Ok None
    | FirstChoice content =>
        params <-- content ;;
        income <-- Py.get params "income" JNull ;;
        expenses <-- Py.get params "expenses" JNull ;;
        if Py.truthy income && Py.truthy expenses
        then
          income <-- float_item params "income" ;;
          expenses <-- Py.item params "expenses" ;;
          Ok (Some {| BudgetParams.income := income;
                      BudgetParams.expenses_dict := expenses |})
        else Ok None
    end.

End Extractors.

(** ** Intent router ([parse_financial_query], lines 406-500) *)

Inductive role := system | user | assistant.

#[global] Instance role_eq_dec : EqDecision role.
Proof. solve_decision. Defined.

(** One turn of [self.conversation_history]: [{"role": ..., "content": ...}]. *)
Record turn := Turn { turn_role : role; turn_content : string }.

(** The dict under ["function_call"]: the function's name with its
    parameters. *)
Inductive function_call :=
| Call_get_stock_data (ticker : string)
| Call_calculate_loan_payment (parameters : LoanParams.t)
| Call_calculate_investment_growth (parameters : InvestmentParams.t)
| Call_calculate_retirement_needs (parameters : RetirementParams.t)
| Call_analyze_budget (parameters : BudgetParams.t).

Definition function_name (c : function_call) : string :=
  match c with
  | Call_get_stock_data _ => "get_stock_data"
  | Call_calculate_loan_payment _ => "calculate_loan_payment"
  | Call_calculate_investment_growth _ => "calculate_investment_growth"
  | Call_calculate_retirement_needs _ => "calculate_retirement_needs"
  | Call_analyze_budget _ => "analyze_budget"
  end.

Definition stock_keywords : list string := ["stock"; "ticker"; "share price"; "stock price"].
Definition loan_keywords : list string := ["loan"; "mortgage"; "payment"; "interest"].
Definition investment_keywords : list string := ["invest"; "compound"; "growth"; "return"].
Definition retirement_keywords : list string := ["retire"; "retirement"; "401k"; "pension"].
Definition budget_keywords : list string := ["budget"; "spending"; "expense"; "income"].

(** [any(keyword in query.lower() for keyword in keywords)]. *)
Definition any_keyword (query : string) (keywords : list string) : bool :=
  existsb (PyStr.contains (PyStr.lower query)) keywords.

(** What [parse_financial_query] returns: the error dict, or the dict with
    ["query"], ["response"] and ["function_call"]. *)
Inductive parsed_result :=
| ParseError (message : string)
| Parsed (query response : string) (call : option function_call).

Section Router.

Context `{Builtins}.

(** The [if]/[elif] chain of lines 437-482. [extraction] is the endpoint's
    reply to the one extraction request the chain may send. *)
Definition identify_function_call (query : string) (extraction : llm_reply (exc json))
  : option function_call :=
  if any_keyword query stock_keywords then
    match _extract_ticker_symbols query with
    | ticker :: _ => Some (Call_get_stock_data ticker)
    | [] => None
    end
  else if any_keyword query loan_keywords then
    match _extract_loan_parameters query extraction with
    | Some loan_params => Some (Call_calculate_loan_payment loan_params)
    | None => None
    end
  else if any_keyword query investment_keywords then
    match _extract_investment_parameters query extraction with
    | Some investment_params => Some (Call_calculate_investment_growth investment_params)
    | None => None
    end
  else if any_keyword query retirement_keywords then
    match _extract_retirement_parameters query extraction with
    | Some retirement_params => Some (Call_calculate_retirement_needs retirement_params)
    | None => None
    end
  else if any_keyword query budget_keywords then
    match _extract_budget_parameters query extraction with
    | Some budget_params => Some (Call_analyze_budget budget_params)
    | None => None
    end
  else None.

(** [parse_financial_query]: the result and the transcript it leaves.
    [primary] is the endpoint's reply to the request carrying the
    transcript. *)
Definition parse_financial_query (conversation_history : list turn) (query : string)
    (primary : llm_reply string) (extraction : llm_reply (exc json))
  : parsed_result * list turn :=
  let conversation_history := conversation_history ++ [Turn user query] in
  match primary with
  | Raises e =>
      (ParseError ("Failed to parse financial query: " +:+ exn_text e),
       conversation_history)
  | FirstChoice assistant_response =>
      let conversation_history :=
        conversation_history ++ [Turn assistant assistant_response] in
      (Parsed query assistant_response (identify_function_call query extraction),
       conversation_history)
  | NoChoices =>
      (ParseError "Failed to get response from language model", conversation_history)
  end.

End Router.

(** ** Turn driver ([process_query], lines 751-825) *)

(** What a dispatched calculator returns, by calculator. *)
Inductive function_result (stock_data budget_data : Type) : Type :=
| Result_get_stock_data (r : calc_result stock_data)
| Result_calculate_loan_payment (r : calc_result loan_data)
| Result_calculate_investment_growth (r : calc_result investment_data)
| Result_calculate_retirement_needs (r : calc_result retirement_data)
| Result_analyze_budget (r : calc_result budget_data).
Arguments Result_get_stock_data {stock_data budget_data} r.
Arguments Result_calculate_loan_payment {stock_data budget_data} r.
Arguments Result_calculate_investment_growth {stock_data budget_data} r.
Arguments Result_calculate_retirement_needs {stock_data budget_data} r.
Arguments Result_analyze_budget {stock_data budget_data} r.

(** The collaborators of the pipeline that the properties below do not
    constrain, each a total function: the market-data lookup
    [get_stock_data] (lines 59-103, a network call that catches its
    exceptions), the budget calculator [analyze_budget] (lines 310-404, which
    catches its exceptions too), and [json.dumps], which renders a result as
    text or raises on a value it cannot serialize. *)
Class Collaborators := {
  stock_data : Type;
  budget_data : Type;
  get_stock_data : string -> calc_result stock_data;
  analyze_budget : float -> json -> calc_result budget_data;
  json_dumps : function_result stock_data budget_data -> exc string
}.

(** The dict [process_query] returns: the parse error passed on, or
    [{"status": "success", "query", "response"}] with ["function_result"]
    when a calculator ran and was narrated. *)
Inductive reply `{Collaborators} : Type :=
| ReplyError (message : string)
| Reply (query response : string)
        (result : option (function_result stock_data budget_data)).

(** [for i in range(len(h) - 1, -1, -1): if h[i]["role"] == "assistant":
    ... break]: the index the loop stops at, scanning down from [i - 1]. *)
Fixpoint last_assistant_below (h : list turn) (i : nat) : option nat :=
  match i with
  | O => None
  | S j =>
      match h !! j with
      | Some t =>
          if decide (turn_role t = assistant) then Some j
          else last_assistant_below h j
      | None => last_assistant_below h j
      end
  end.

(** Lines 804-810: overwrite the content of the last assistant turn, or
    append an assistant turn when the loop finds none. *)
Definition update_last_assistant (h : list turn) (updated_response : string) : list turn :=
  match last_assistant_below h (length h) with
  | Some i => alter (fun t => Turn (turn_role t) updated_response) i h
  | None => h ++ [Turn assistant updated_response]
  end.

Section Driver.

Context `{Builtins} `{Libm} `{Collaborators}.

(** The dispatch on [function_name] with [**parameters] (lines 773-782). *)
Definition execute (call : function_call) : function_result stock_data budget_data :=
  match call with
  | Call_get_stock_data ticker =>
      Result_get_stock_data (get_stock_data ticker)
  | Call_calculate_loan_payment p =>
      Result_calculate_loan_payment
        (calculate_loan_payment (LoanParams.principal p) (LoanParams.interest_rate p)
           (LoanParams.years p))
  | Call_calculate_investment_growth p =>
      Result_calculate_investment_growth
        (calculate_investment_growth (InvestmentParams.initial_investment p)
           (InvestmentParams.monthly_contribution p) (InvestmentParams.annual_return p)
           (InvestmentParams.years p))
  | Call_calculate_retirement_needs p =>
      Result_calculate_retirement_needs
        (calculate_retirement_needs (RetirementParams.current_age p)
           (RetirementParams.retirement_age p) (RetirementParams.life_expectancy p)
           (RetirementParams.annual_expenses p) (RetirementParams.inflation_rate p)
           (RetirementParams.current_savings p) (RetirementParams.monthly_contribution p)
           (RetirementParams.expected_return p))
  | Call_analyze_budget p =>
      Result_analyze_budget
        (analyze_budget (BudgetParams.income p) (BudgetParams.expenses_dict p))
  end.

(** [process_query]: what it returns, or the exception it lets through (it
    has no handler of its own), and the transcript it leaves. [primary] and
    [extraction] are the replies [parse_financial_query] reads; [followup]
    is the reply to the narration request sent after a calculator ran. *)
Definition process_query (conversation_history : list turn) (query : string)
    (primary : llm_reply string) (extraction : llm_reply (exc json))
    (followup : llm_reply string)
  : exc reply * list turn :=
  let '(parsed_result, conversation_history) :=
    parse_financial_query conversation_history query primary extraction in
  match parsed_result with
  | ParseError message => (Ok (ReplyError message), conversation_history)
  | Parsed query response None => (Ok (Reply query response None), conversation_history)
  | Parsed query response (Some call) =>
      let function_result := execute call in
      match json_dumps function_result with
      | Raise e => (Raise e, conversation_history)
      | Ok dumped =>
          let result_message :=
            "Function " +:+ function_name call +:+ " returned: " +:+ dumped in
          let conversation_history :=
            conversation_history ++ [Turn system result_message] in
          match followup with
          | Raises e => (Raise e, conversation_history)
          | FirstChoice updated_response =>
              (Ok (Reply query updated_response (Some function_result)),
               update_last_assistant conversation_history updated_response)
          | NoChoices => (Ok (Reply query response None), conversation_history)
          end
      end
  end.

End Driver.

(** ** Market data ([get_stock_data], lines 59-103) *)

Module Market.

(** What the market-data library gives for a ticker and a period:
    [yf.Ticker(ticker)], its [info] dict and its [history(period=period)]
    frame - an exception, or the dict together with [history.to_dict()] when
    the frame is not empty ([None] when [history.empty]). The values of
    [info] are those of a decoded JSON document. *)
Class Provider := {
  history_dict : Type;
  fetch : string -> string -> exc (gmap string json * option history_dict)
}.

(** [v != "N/A"]. *)
Definition is_not_na (v : json) : bool :=
  match v with
  | JString s => negb (String.eqb s "N/A")
  | _ => true
  end.

Fixpoint repeat_string (s : string) (n : nat) : string :=
  match n with
  | O => EmptyString
  | S k => s +:+ repeat_string s k
  end.

(** [v * 100]: numbers are multiplied, strings and lists repeated, and
    [None] and dicts raise. *)
Definition times_100 (v : json) : exc json :=
  match v with
  | JNull => Raise (TypeError "unsupported operand type(s) for *: 'NoneType' and 'int'")
  | JBool b => Ok (JInt (if b then 100 else 0))
  | JInt n => Ok (JInt (n * 100))
  | JFloat x => Ok (JFloat (x * 100)%float)
  | JString s => Ok (JString (repeat_string s 100))
  | JArray items => Ok (JArray (mjoin (replicate 100 items)))
  | JObject _ => Raise (TypeError "unsupported operand type(s) for *: 'dict' and 'int'")
  end.

(** [info.get(key, "N/A")]. *)
Definition info_get (info : gmap string json) (key : string) : json :=
  default (JString "N/A") (info !! key).

(** The dict under ["data"]: its first fourteen entries in the order the
    dict literal writes them, and the entry ["historical_data"], whose value
    is [history.to_dict()] or, for an empty frame, the empty dict ([None]). *)
Record stock_data (H : Type) := {
  quote : list (string * json);
  historical_data : option H
}.
Arguments quote {H} _.
Arguments historical_data {H} _.

(** [stock_data[key]] for one of the first fourteen keys. *)
Fixpoint lookup_quote (key : string) (entries : list (string * json)) : option json :=
  match entries with
  | [] => None
  | (k, v) :: entries' => if String.eqb k key then Some v else lookup_quote key entries'
  end.

Definition get_stock_data `{Provider} (ticker : string) (period : string)
  : calc_result (stock_data history_dict) :=
  try_except "Failed to retrieve stock data: "
    (answer <-- fetch ticker period ;;
     let '(info, history) := answer in
     dividend_yield <--
       (if is_not_na (info_get info "dividendYield")
        then times_100 (info_get info "dividendYield")
        else Ok (JString "N/A")) ;;
     Ok {| quote :=
             [("name", info_get info "shortName");
              ("sector", info_get info "sector");
              ("current_price",
               default (info_get info "regularMarketPrice") (info !! "currentPrice"));
              ("previous_close", info_get info "previousClose");
              ("open", info_get info "open");
              ("day_low", info_get info "dayLow");
              ("day_high", info_get info "dayHigh");
              ("52_week_low", info_get info "fiftyTwoWeekLow");
              ("52_week_high", info_get info "fiftyTwoWeekHigh");
              ("volume", info_get info "volume");
              ("avg_volume", info_get info "averageVolume");
              ("market_cap", info_get info "marketCap");
              ("pe_ratio", info_get info "trailingPE");
              ("dividend_yield", dividend_yield)];
           historical_data := history |}).

(** The keys of the result and the [info] keys they are read from. *)
Definition plain_fields : list (string * string) :=
  [("name", "shortName"); ("sector", "sector"); ("previous_close", "previousClose");
   ("open", "open"); ("day_low", "dayLow"); ("day_high", "dayHigh");
   ("52_week_low", "fiftyTwoWeekLow"); ("52_week_high", "fiftyTwoWeekHigh");
   ("volume", "volume"); ("avg_volume", "averageVolume"); ("market_cap", "marketCap");
   ("pe_ratio", "trailingPE")].

(** A provider for the examples: a quote without dividend and an empty
    history for [AAPL], a quote with a [null] dividend yield for [TSLA], and
    a failed request for any other ticker. *)
Definition example_provider : Provider := {|
  history_dict := unit;
  fetch ticker period :=
    if String.eqb ticker "AAPL"
    then Ok (list_to_map [("shortName", JString "Apple Inc.");
                          ("regularMarketPrice", JFloat 189.5)], None)
    else if String.eqb ticker "TSLA"
    then Ok (list_to_map [("shortName", JString "Tesla, Inc."); ("dividendYield", JNull)],
             None)
    else Raise (Exn "HTTPError" "404 Client Error: Not Found")
|}.

End Market.

(** ** Instances used to run the examples *)

(** Exponentiation by repeated multiplication. It returns the exact power,
    as [pow] does, whenever every intermediate product is exact; the
    examples below that reach it use [1.0625 ** 12] (the powers of
    [17/16] up to the twelfth fit in 53 bits) and [1.0 ** n]. *)
Fixpoint repeated_product (x : float) (n : nat) : float :=
  match n with
  | O => 1%float
  | S k => (x * repeated_product x k)%float
  end.

Definition repeated_product_pow (x : float) (n : Z) : exc float :=
  if n <? 0 then
    if PyFloat.is_zero x
    then Raise (ZeroDivisionError "0.0 cannot be raised to a negative power")
    else Ok (1 / repeated_product x (Z.to_nat (- n)))%float
  else
    let y := repeated_product x (Z.to_nat n) in
    if PyFloat.is_finite x && negb (PyFloat.is_finite y)
    then Raise (OverflowError "(34, 'Numerical result out of range')")
    else Ok y.

Definition example_libm : Libm := {| float_pow := repeated_product_pow |}.

(** Strings of decimal digits read as the number they write; any other
    string is refused. (The interpreter reads more literals than these; the
    examples below hold no other string.) *)
Definition digits_value (s : string) : option Z :=
  if PyStr.is_empty s || negb (PyStr.all_chars PyStr.is_digit_char s) then None
  else Some (foldl (fun acc c => 10 * acc + (Z.of_N (PyStr.code c) - 48)) 0
               (list_ascii_of_string s)).

Definition example_builtins : Builtins := {|
  float_of_str s :=
    match digits_value s with
    | Some n => PyFloat.of_Z n
    | None => Raise (ValueError "could not convert string to float")
    end;
  int_of_str s :=
    match digits_value s with
    | Some n => Ok n
    | None => Raise (ValueError "invalid literal for int() with base 10")
    end
|}.

(** Collaborators of a bot that is offline: the market-data lookup reports
    the failure of its request. The budget calculator is given no budget in
    the examples; [json.dumps] is taken to render every result as the text
    [{...}]. *)
Definition example_collaborators : Collaborators := {|
  stock_data := unit;
  budget_data := unit;
  get_stock_data _ := Error "Failed to retrieve stock data: connection refused";
  analyze_budget _ _ := Error "Failed to analyze budget: unsupported";
  json_dumps _ := Ok "{...}"
|}.

(** The parsed extraction replies of the examples. *)
Definition example_investment_reply : json :=
  JObject (list_to_map [("initial_investment", JInt 1000); ("monthly_contribution", JInt 0);
                        ("annual_return", JInt 0); ("years", JInt 1)]).

Definition example_loan_reply : json :=
  JObject (list_to_map [("principal", JInt 250000); ("interest_rate", JFloat 6.5);
                        ("years", JInt 30)]).

Definition example_unreadable_investment_reply : gmap string json :=
  list_to_map [("initial_investment", JInt 1000); ("monthly_contribution", JInt 0);
               ("annual_return", JInt 5); ("years", JString "ten years")].

Definition example_zero_rate_loan_reply : gmap string json :=
  list_to_map [("principal", JInt 10000); ("interest_rate", JInt 0); ("years", JInt 5)].

Definition example_unreadable_retirement_reply : gmap string json :=
  list_to_map [("current_age", JString "thirty-five")].

Definition example_null_retirement_reply : gmap string json :=
  list_to_map [("current_age", JInt 40); ("retirement_age", JNull)].

Definition example_partial_retirement_reply : gmap string json :=
  list_to_map [("current_age", JInt 40); ("retirement_age", JInt 67)].

(** The bot of the examples, and a transcript it may have reached. *)
Definition example_process_query :=
  @process_query example_builtins example_libm example_collaborators.

Definition example_history : list turn :=
  [Turn system "You are a knowledgeable financial advisor chatbot.";
   Turn user "Hello";
   Turn assistant "Hello! How can I help you with your finances?"].

(** ** Definitions the properties are stated with *)

(** Section 4.2 in the specification's words: tokenize the query on
    whitespace, strip the non-alphanumeric characters of each token, and keep
    the tokens that are purely alphabetic, uppercase, and at most 5
    characters. *)
Definition spec_ticker_candidates (query : string) : list string :=
  List.filter
    (fun word =>
       PyStr.isalpha word && PyStr.eqb word (PyStr.upper word) && (PyStr.len word <=? 5))
    (map (PyStr.filter_chars PyStr.isalnum_char) (PyStr.split query)).

(** The five domains of the router, in the order the chain tests them. *)
Inductive domain := Stock | Loan | Investment | Retirement | Budget.

#[global] Instance domain_eq_dec : EqDecision domain.
Proof. solve_decision. Defined.

Definition priority_order : list domain := [Stock; Loan; Investment; Retirement; Budget].

Definition domain_keywords (d : domain) : list string :=
  match d with
  | Stock => stock_keywords
  | Loan => loan_keywords
  | Investment => investment_keywords
  | Retirement => retirement_keywords
  | Budget => budget_keywords
  end.

Definition call_domain (c : function_call) : domain :=
  match c with
  | Call_get_stock_data _ => Stock
  | Call_calculate_loan_payment _ => Loan
  | Call_calculate_investment_growth _ => Investment
  | Call_calculate_retirement_needs _ => Retirement
  | Call_analyze_budget _ => Budget
  end.

(** The first domain, in priority order, whose keyword set matches. *)
Definition first_keyword_domain (query : string) : option domain :=
  List.find (fun d => any_keyword query (domain_keywords d)) priority_order.

(** Section 4.1 in the specification's words: the stock domain counts as a
    match only if a candidate ticker is extracted, the other four match on
    keyword presence alone, and the first matching domain is taken. *)
Definition spec_matches (query : string) (d : domain) : bool :=
  match d with
  | Stock =>
      any_keyword query stock_keywords &&
      match _extract_ticker_symbols query with [] => false | _ :: _ => true end
  | _ => any_keyword query (domain_keywords d)
  end.

Definition spec_first_match (query : string) : option domain :=
  List.find (spec_matches query) priority_order.

(** The field [key] is present in the parsed object and is not [null]. *)
Definition present_non_null (fields : gmap string json) (key : string) : bool :=
  match fields !! key with
  | Some v => Py.is_not_none v
  | None => false
  end.

(** The eight fields the retirement extractor reads. *)
Definition retirement_fields : list string :=
  ["current_age"; "retirement_age"; "life_expectancy"; "annual_expenses";
   "inflation_rate"; "current_savings"; "monthly_contribution"; "expected_return"].

(** The field [key] is absent from the parsed object. *)
Definition is_absent (fields : gmap string json) (key : string) : bool :=
  match fields !! key with
  | Some _ => false
  | None => true
  end.

(** The field [key] is absent from the parsed object, or holds a value
    other than [null]. *)
Definition is_not_null (fields : gmap string json) (key : string) : bool :=
  match fields !! key with
  | Some v => Py.is_not_none v
  | None => true
  end.

(** The field [key] is present, is not [null], and [conv] turns it into
    [x]. *)
Definition converts_to {A : Type} (conv : json -> exc A) (fields : gmap string json)
    (key : string) (x : A) : Prop :=
  exists v, fields !! key = Some v /\ Py.is_not_none v = true /\ conv v = Ok x.

(** The field [key] is present, is truthy, and [conv] turns it into [x]. *)
Definition truthy_converts_to {A : Type} (conv : json -> exc A) (fields : gmap string json)
    (key : string) (x : A) : Prop :=
  exists v, fields !! key = Some v /\ Py.truthy v = true /\ conv v = Ok x.

(** The full month-by-month schedule: the entry of every payment of
    [months], from the balance before the first of them. *)
Fixpoint amortization (monthly_payment monthly_rate : float) (balance : float)
    (months : list Z) : list schedule_entry :=
  match months with
  | [] => []
  | i :: months' =>
      let '(balance', entry) := loan_entry monthly_payment monthly_rate balance i in
      entry :: amortization monthly_payment monthly_rate balance' months'
  end.

(** The shape of a schedule entry: a balance clamped at zero, the monthly
    payment as its amount, and the amount less the interest as its principal
    part. *)
Definition entry_shape (monthly_payment : float) (e : schedule_entry) : Prop :=
  (0 <=? remaining_balance e)%float = true /\
  payment_amount e = monthly_payment /\
  principal_paid e = (payment_amount e - interest_paid e)%float.

(** [s.isascii()]: every character of [s] has a code below 128. *)
Definition is_ascii (s : string) : bool :=
  PyStr.all_chars (fun c => (PyStr.code c <? 128)%N) s.

(** The test of line 513 on a cleaned word. *)
Definition ticker_test (word : string) : bool :=
  PyStr.isalpha word && (PyStr.len word <=? 5) && PyStr.eqb word (PyStr.upper word).

(** What the investment loop preserves when nothing is contributed and
    nothing is earned: the balance and the contributions stay the initial
    amount, the interest stays zero. *)
Definition idle_state (initial : float) (st : investment_state) : Prop :=
  PyFloat.same_number (st_balance st) initial /\
  PyFloat.same_number (st_total_contribution st) initial /\
  PyFloat.is_zero (st_total_interest st) = true.


(** The reply carries a first choice. *)
Definition is_first_choice {C : Type} (r : llm_reply C) : bool :=
  match r with
  | FirstChoice _ => true
  | _ => false
  end.


(** The test [i % 12 == 0] of the investment loop. *)
Definition is_year_end (i : Z) : bool := i mod 12 =? 0.

Definition example_zero_return_reply : json :=
  JObject (list_to_map [("current_age", JInt 40); ("expected_return", JInt 0)]).

(** * Properties *)

(** ** Facts about binary64 arithmetic *)

Module FloatFacts.

Local Open Scope float_scope.

(** A float that compares equal to zero is one of the two zeros. *)
Lemma is_zero_cases (x : float) :
  PyFloat.is_zero x = true -> x = 0 \/ x = (-0).
Proof.
  unfold PyFloat.is_zero. rewrite FloatAxioms.eqb_spec.
  intros Hx. rewrite <- (SF2Prim_Prim2SF x).
  destruct (Prim2SF x) as [[|]| [|] | |[|] m e]; try discriminate Hx.
  - right. reflexivity.
  - left. reflexivity.
Qed.

(** [x > 0] entails [x >= 0]. *)
Lemma ltb_leb (x y : float) : (x <? y) = true -> (x <=? y) = true.
Proof.
  rewrite FloatAxioms.ltb_spec, FloatAxioms.leb_spec. unfold SFltb, SFleb.
  destruct (SFcompare (Prim2SF x) (Prim2SF y)) as [[| |]|]; congruence.
Qed.

Lemma max0_nonneg (x : float) : (0 <=? PyFloat.max0 x) = true.
Proof.
  unfold PyFloat.max0. destruct (0 <? x) eqn:Hx.
  - apply ltb_leb, Hx.
  - reflexivity.
Qed.

Lemma same_number_refl (x : float) : PyFloat.is_finite x = true -> PyFloat.same_number x x.
Proof. intros Hx. split; [exact Hx | left; reflexivity]. Qed.

Lemma is_zero_finite (x : float) : PyFloat.is_zero x = true -> PyFloat.is_finite x = true.
Proof. intros [-> | ->]%is_zero_cases; reflexivity. Qed.

Lemma same_number_finite (x y : float) : PyFloat.same_number x y -> PyFloat.is_finite x = true.
Proof.
  intros [Hy [Hxy | [Hx _]]].
  - unfold PyFloat.is_finite in *. rewrite Hxy. exact Hy.
  - apply is_zero_finite, Hx.
Qed.

Lemma sf_compare_refl (a : spec_float) :
  match a with S754_zero _ | S754_finite _ _ _ => SFcompare a a = Some Eq | _ => True end.
Proof.
  destruct a as [s | s | | s m e]; simpl; try exact I; try reflexivity.
  rewrite Z.compare_refl, Pos.compare_cont_refl. destruct s; reflexivity.
Qed.

(** Equal numbers compare equal. *)
Lemma same_number_eqb (x y : float) : PyFloat.same_number x y -> (x =? y) = true.
Proof.
  intros [Hy [Hxy | [Hx Hz]]].
  - rewrite FloatAxioms.eqb_spec, Hxy. unfold SFeqb, PyFloat.is_finite in *.
    pose proof (sf_compare_refl (Prim2SF y)) as Hc.
    destruct (Prim2SF y); try discriminate Hy; rewrite Hc; reflexivity.
  - apply is_zero_cases in Hx, Hz. destruct Hx as [-> | ->], Hz as [-> | ->]; reflexivity.
Qed.

(** Adding a zero to a finite number leaves the number. *)
Lemma add_zero_same (x y z : float) :
  PyFloat.same_number x y -> PyFloat.is_zero z = true -> PyFloat.same_number (x + z) y.
Proof.
  intros Hxy Hz. pose proof (same_number_finite _ _ Hxy) as Hfin.
  destruct Hxy as [Hy Hxy]. split; [exact Hy |].
  assert (Hsum : Prim2SF (x + z) = Prim2SF x \/
                 (PyFloat.is_zero (x + z) = true /\ PyFloat.is_zero x = true)).
  { unfold PyFloat.is_zero, PyFloat.is_finite in *.
    rewrite !FloatAxioms.eqb_spec, FloatAxioms.add_spec.
    apply is_zero_cases in Hz.
    destruct (Prim2SF x) as [s | s | | s m e]; try discriminate Hfin.
    - right. destruct Hz as [-> | ->], s; split; reflexivity.
    - left. destruct Hz as [-> | ->]; reflexivity. }
  destruct Hsum as [Hsum | [Hsum Hx]].
  - destruct Hxy as [Hxy | [Hx Hy0]].
    + left. rewrite Hsum. exact Hxy.
    + right. split; [| exact Hy0].
      unfold PyFloat.is_zero in *. rewrite FloatAxioms.eqb_spec in *.
      rewrite Hsum. exact Hx.
  - right. split; [exact Hsum |].
    destruct Hxy as [Hxy | [_ Hy0]]; [| exact Hy0].
    unfold PyFloat.is_zero in *. rewrite FloatAxioms.eqb_spec in *.
    rewrite <- Hxy. exact Hx.
Qed.

(** A finite number times a zero is a zero. *)
Lemma mul_zero_is_zero (x z : float) :
  PyFloat.is_finite x = true -> PyFloat.is_zero z = true -> PyFloat.is_zero (x * z) = true.
Proof.
  intros Hx Hz. unfold PyFloat.is_zero, PyFloat.is_finite in *.
  rewrite FloatAxioms.eqb_spec, FloatAxioms.mul_spec.
  apply is_zero_cases in Hz.
  destruct (Prim2SF x) as [s | s | | s m e]; try discriminate Hx;
    destruct Hz as [-> | ->]; reflexivity.
Qed.

Lemma add_zeros_is_zero (x z : float) :
  PyFloat.is_zero x = true -> PyFloat.is_zero z = true -> PyFloat.is_zero (x + z) = true.
Proof. intros [-> | ->]%is_zero_cases [-> | ->]%is_zero_cases; reflexivity. Qed.

(** The monthly rate of a zero annual rate is a zero. *)
Lemma monthly_rate_of_zero (annual : float) :
  PyFloat.is_zero annual = true -> PyFloat.is_zero (annual / 100 / 12) = true.
Proof. intros [-> | ->]%is_zero_cases; reflexivity. Qed.

End FloatFacts.

(** ** Investment growth *)

Section InvestmentGrowth.

Import FloatFacts.

Variables (initial monthly_contribution monthly_rate : float).
Hypothesis no_contribution : PyFloat.is_zero monthly_contribution = true.
Hypothesis no_rate : PyFloat.is_zero monthly_rate = true.

Lemma investment_step_idle (st : investment_state) (i : Z) :
  idle_state initial st -> idle_state initial (investment_step monthly_contribution monthly_rate st i).
Proof.
  intros (Hb & Hc & Hi).
  assert (Hb' : PyFloat.same_number (st_balance st + monthly_contribution)%float initial)
    by (apply add_zero_same; assumption).
  assert (Hint : PyFloat.is_zero
                   ((st_balance st + monthly_contribution) * monthly_rate)%float = true)
    by (apply mul_zero_is_zero; [eapply same_number_finite; exact Hb' | exact no_rate]).
  unfold investment_step. destruct (i mod 12 =? 0); unfold idle_state; simpl;
    (split; [apply add_zero_same; assumption |
     split; [apply add_zero_same; assumption | apply add_zeros_is_zero; assumption]]).
Qed.

Lemma investment_loop_idle (months : list Z) (st : investment_state) :
  idle_state initial st ->
  idle_state initial (foldl (investment_step monthly_contribution monthly_rate) st months).
Proof.
  revert st. induction months as [| i months IH]; intros st Hst; simpl.
  - exact Hst.
  - apply IH, investment_step_idle, Hst.
Qed.

End InvestmentGrowth.

(** C9. With no monthly contribution and a zero annual return,
    [calculate_investment_growth] returns a success result whose
    [final_balance] equals the initial investment ([==] on floats), whose
    [total_interest] is zero and whose [total_contributions] equals the
    initial investment; this for every finite initial investment and every
    number of years ([years >= 1] included). *)
Theorem investment_without_growth_keeps_initial
    (initial_investment monthly_contribution annual_return : float) (years : Z) :
  PyFloat.is_finite initial_investment = true ->
  PyFloat.is_zero monthly_contribution = true ->
  PyFloat.is_zero annual_return = true ->
  exists d,
    calculate_investment_growth initial_investment monthly_contribution annual_return years
      = Success d /\
    PrimFloat.eqb (final_balance d) initial_investment = true /\
    PyFloat.is_zero (investment_total_interest d) = true /\
    PrimFloat.eqb (total_contributions d) initial_investment = true.
Proof.
  intros Hfin Hmc Har. eexists. split; [reflexivity |]. simpl.
  pose proof (FloatFacts.monthly_rate_of_zero _ Har) as Hrate.
  destruct (investment_loop_idle initial_investment monthly_contribution
              (annual_return / 100 / 12)%float Hmc Hrate (seqZ 1 (years * 12))
              {| st_balance := initial_investment;
                 st_total_contribution := initial_investment;
                 st_total_interest := 0%float;
                 st_balances := [];
                 st_contributions := [];
                 st_interests := [] |}) as (Hb & Hc & Hi).
  { split; [apply FloatFacts.same_number_refl, Hfin |].
    split; [apply FloatFacts.same_number_refl, Hfin | reflexivity]. }
  repeat split.
  - apply FloatFacts.same_number_eqb, Hb.
  - exact Hi.
  - apply FloatFacts.same_number_eqb, Hc.
Qed.

Lemma investment_without_growth_keeps_initial_witness :
  PyFloat.is_finite 1000%float = true /\
  exists d,
    calculate_investment_growth 1000%float 0%float 0%float 10 = Success d /\
    PrimFloat.eqb (final_balance d) 1000%float = true /\
    PyFloat.is_zero (investment_total_interest d) = true /\
    PrimFloat.eqb (total_contributions d) 1000%float = true.
Proof.
  split; [reflexivity |].
  apply (investment_without_growth_keeps_initial 1000%float 0%float 0%float 10);
    reflexivity.
Defined.

(** ** Retirement needs *)

Lemma div_by_zero_raises (x y : float) :
  PyFloat.is_zero y = true ->
  PyFloat.div x y = Raise (ZeroDivisionError "float division by zero").
Proof. intros Hy. unfold PyFloat.div. rewrite Hy. reflexivity. Qed.

(** C10. With [expected_return] equal to zero, [calculate_retirement_needs]
    never returns a success result: the annuity future value divides by the
    zero monthly rate, the exception is caught, and the result is
    [{"status": "error"}]. Whenever the two powers computed before the
    division do not themselves raise, the message is that of the division by
    zero. This holds for all ages, those with [retirement_age > current_age]
    included. *)
Theorem retirement_zero_return_is_error `{Libm}
    (current_age retirement_age life_expectancy : Z)
    (annual_expenses inflation_rate current_savings monthly_contribution
       expected_return : float) :
  PyFloat.is_zero expected_return = true ->
  exists message,
    calculate_retirement_needs current_age retirement_age life_expectancy annual_expenses
      inflation_rate current_savings monthly_contribution expected_return = Error message /\
    is_success
      (calculate_retirement_needs current_age retirement_age life_expectancy annual_expenses
         inflation_rate current_savings monthly_contribution expected_return) = false /\
    (forall inflation growth : float,
        float_pow (1 + inflation_rate / 100)%float (retirement_age - current_age)
          = Ok inflation ->
        float_pow (1 + expected_return / 100 / 12)%float
          ((retirement_age - current_age) * 12) = Ok growth ->
        message = "Failed to calculate retirement needs: float division by zero").
Proof.
  intros Hzero. apply FloatFacts.monthly_rate_of_zero in Hzero.
  unfold calculate_retirement_needs.
  destruct (float_pow (1 + inflation_rate / 100)%float (retirement_age - current_age))
    as [inflation | e1]; simpl.
  - destruct (float_pow (1 + expected_return / 100 / 12)%float
                ((retirement_age - current_age) * 12)) as [growth | e2]; simpl.
    + rewrite (div_by_zero_raises _ _ Hzero). simpl.
      eexists. split; [reflexivity |]. split; [reflexivity |]. intros; reflexivity.
    + eexists. split; [reflexivity |]. split; [reflexivity |]. intros ? ? _ [=].
  - eexists. split; [reflexivity |]. split; [reflexivity |]. intros ? ? [=].
Qed.

Lemma retirement_zero_return_is_error_witness :
  PyFloat.is_zero 0%float = true /\
  exists message,
    @calculate_retirement_needs example_libm 30 65 90 50000%float 2.5%float 0%float
      500%float 0%float = Error message /\
    is_success
      (@calculate_retirement_needs example_libm 30 65 90 50000%float 2.5%float 0%float
         500%float 0%float) = false /\
    (forall inflation growth : float,
        @float_pow example_libm (1 + 2.5 / 100)%float (65 - 30) = Ok inflation ->
        @float_pow example_libm (1 + 0 / 100 / 12)%float ((65 - 30) * 12) = Ok growth ->
        message = "Failed to calculate retirement needs: float division by zero").
Proof.
  split; [reflexivity |].
  apply (@retirement_zero_return_is_error example_libm 30 65 90 50000%float 2.5%float
           0%float 500%float 0%float).
  reflexivity.
Defined.

(** ** Loan payment *)

Section LoanSchedule.

Variables (monthly_payment monthly_rate : float) (n_payments : Z).

Lemma amortization_numbers (balance : float) (months : list Z) :
  map payment_number (amortization monthly_payment monthly_rate balance months) = months.
Proof.
  revert balance. induction months as [| i months IH]; intros balance; simpl.
  - reflexivity.
  - f_equal. apply IH.
Qed.

(** The loop appends, of the full schedule, the entries it keeps. *)
Lemma loan_loop (months : list Z) (balance : float) (acc : list schedule_entry) :
  (foldl (loan_step monthly_payment monthly_rate n_payments) (balance, acc) months).2 =
  acc ++ List.filter (fun e => loan_keeps n_payments (payment_number e))
           (amortization monthly_payment monthly_rate balance months).
Proof.
  revert balance acc. induction months as [| i months IH]; intros balance acc; simpl.
  - now rewrite app_nil_r.
  - unfold loan_step at 2. simpl. rewrite IH.
    destruct (loan_keeps n_payments i); simpl.
    + now rewrite <- app_assoc.
    + reflexivity.
Qed.

(** Each entry of the full schedule has the shape [entry_shape]. *)
Lemma amortization_shape (balance : float) (months : list Z) :
  Forall (entry_shape monthly_payment)
    (amortization monthly_payment monthly_rate balance months).
Proof.
  revert balance. induction months as [| i months IH]; intros balance; simpl.
  - constructor.
  - constructor; [| apply IH].
    repeat split; simpl. apply FloatFacts.max0_nonneg.
Qed.

End LoanSchedule.

Lemma map_filter_swap {A B : Type} (f : A -> B) (p : B -> bool) (l : list A) :
  map f (List.filter (fun a => p (f a)) l) = List.filter p (map f l).
Proof.
  induction l as [| a l IH]; simpl; [reflexivity |].
  destruct (p (f a)); simpl; now rewrite IH.
Qed.

Lemma Forall_list_filter {A : Type} (P : A -> Prop) (p : A -> bool) (l : list A) :
  Forall P l -> Forall P (List.filter p l).
Proof.
  induction 1 as [| a l Ha Hl IH]; simpl; [constructor |].
  destruct (p a); [constructor |]; assumption.
Qed.

(** From the thirteenth payment on the loop may keep what it likes: the
    first ten kept payments are the payments 1 to 10. *)
Lemma first_ten_kept (n_payments : Z) :
  12 <= n_payments ->
  take 10 (List.filter (loan_keeps n_payments) (seqZ 1 n_payments)) = seqZ 1 10.
Proof.
  intros Hn. replace n_payments with (10 + (n_payments - 10)) at 2 by lia.
  rewrite seqZ_app by lia. rewrite List.filter_app.
  change (seqZ 1 10) with [1; 2; 3; 4; 5; 6; 7; 8; 9; 10]. reflexivity.
Qed.

(** What a successful call returns, from the monthly payment it computed. *)
Lemma calculate_loan_payment_success `{Libm}
    (principal interest_rate : float) (years : Z) (payment n : float) :
  loan_monthly_payment principal (interest_rate / 100 / 12)%float (years * 12) = Ok payment ->
  PyFloat.of_Z (years * 12) = Ok n ->
  calculate_loan_payment principal interest_rate years =
  Success
    {| monthly_payment := payment;
       total_payments := years * 12;
       total_cost := (payment * n)%float;
       total_interest := (payment * n - principal)%float;
       interest_rate_monthly := (interest_rate / 100 / 12)%float;
       schedule :=
         take 10
           (List.filter (fun e => loan_keeps (years * 12) (payment_number e))
              (amortization payment (interest_rate / 100 / 12)%float principal
                 (seqZ 1 (years * 12)))) |}.
Proof.
  intros Hpay Hn. unfold calculate_loan_payment. rewrite Hpay. simpl. rewrite Hn. simpl.
  rewrite loan_loop. reflexivity.
Qed.

Lemma calculate_loan_payment_inv `{Libm}
    (principal interest_rate : float) (years : Z) (d : loan_data) :
  calculate_loan_payment principal interest_rate years = Success d ->
  exists payment n,
    loan_monthly_payment principal (interest_rate / 100 / 12)%float (years * 12) = Ok payment /\
    PyFloat.of_Z (years * 12) = Ok n.
Proof.
  unfold calculate_loan_payment.
  destruct (loan_monthly_payment _ _ _) as [payment | e]; simpl; [| discriminate].
  destruct (PyFloat.of_Z (years * 12)) as [n | e]; simpl; [| discriminate].
  intros _. now exists payment, n.
Qed.

(** C6 (amended). For a loan term of at least one year
    [calculate_loan_payment] either fails or trims. When the payment formula
    raises ([OverflowError] from the power or from the conversion of the
    number of payments, [ZeroDivisionError] from the division), the result is
    the error result that carries the text of the exception, and no schedule.
    Otherwise the call succeeds and returns, of the full month-by-month
    schedule (one entry per payment [1 .. 12 * years]), the entries of the
    first year, of every twelfth month and of the last month, cut to the
    first ten: the returned entries are those of the payments 1 to 10. *)
Theorem loan_schedule_is_trimmed `{Libm}
    (principal interest_rate : float) (years : Z) :
  1 <= years ->
  match loan_monthly_payment principal (interest_rate / 100 / 12)%float (years * 12),
        PyFloat.of_Z (years * 12) with
  | Ok payment, Ok n =>
      exists d,
        calculate_loan_payment principal interest_rate years = Success d /\
        let full :=
          amortization payment (interest_rate / 100 / 12)%float principal
            (seqZ 1 (years * 12)) in
        map payment_number full = seqZ 1 (years * 12) /\
        schedule d =
          take 10 (List.filter (fun e => loan_keeps (years * 12) (payment_number e)) full) /\
        (length (schedule d) <= 10)%nat /\
        map payment_number (schedule d) = seqZ 1 10
  | Raise e, _ | Ok _, Raise e =>
      calculate_loan_payment principal interest_rate years =
      Error ("Failed to calculate loan payment: " +:+ exn_text e)
  end.
Proof.
  intros Hyears.
  destruct (loan_monthly_payment principal (interest_rate / 100 / 12)%float (years * 12))
    as [payment | e] eqn:Hpay.
  - destruct (PyFloat.of_Z (years * 12)) as [n | e] eqn:Hn.
    + eexists. split.
      * apply calculate_loan_payment_success; eassumption.
      * cbv zeta. simpl schedule. split; [apply amortization_numbers |].
        split; [reflexivity |]. split.
        -- rewrite length_take. lia.
        -- rewrite <- List.firstn_map.
           rewrite (map_filter_swap payment_number (loan_keeps (years * 12))).
           rewrite amortization_numbers. apply first_ten_kept. lia.
    + unfold calculate_loan_payment. rewrite Hpay. simpl. rewrite Hn. reflexivity.
  - unfold calculate_loan_payment. rewrite Hpay. reflexivity.
Qed.

Lemma loan_schedule_is_trimmed_witness :
  1 <= 1 /\
  exists d,
    @calculate_loan_payment example_libm 1000%float 75%float 1 = Success d /\
    (length (schedule d) <= 10)%nat /\
    map payment_number (schedule d) = seqZ 1 10.
Proof.
  split; [lia |].
  pose proof (@loan_schedule_is_trimmed example_libm 1000%float 75%float 1 ltac:(lia))
    as Htrimmed.
  change (@loan_monthly_payment example_libm 1000%float (75 / 100 / 12)%float (1 * 12))
    with (Ok (1000 * (0.0625 * repeated_product 1.0625 12)
              / (repeated_product 1.0625 12 - 1))%float) in Htrimmed.
  change (PyFloat.of_Z (1 * 12)) with (Ok 12%float) in Htrimmed.
  destruct Htrimmed as (d & Hd & _ & _ & Hlength & Hnumbers).
  exists d. split; [exact Hd | split; [exact Hlength | exact Hnumbers]].
Defined.

(** C6 as stated fails: with one year and an interest rate of [2 ** -50]
    percent the monthly rate is not zero but [1 + monthly_rate] rounds to
    [1.0], the divisor [(1 + monthly_rate) ** 12 - 1] is zero, and the call
    returns the error result, without a schedule. *)
Lemma loan_tiny_rate_is_error :
  1 <= 1 /\
  PyFloat.is_zero (0x1p-50 / 100 / 12)%float = false /\
  @calculate_loan_payment example_libm 1000%float 0x1p-50%float 1 =
  Error "Failed to calculate loan payment: float division by zero".
Proof. split; [lia |]. split; vm_compute; reflexivity. Qed.

(** C7 (amended). Every schedule entry [calculate_loan_payment] returns has
    a [remaining_balance] clamped at zero from below, hence [>= 0]; its
    [payment_amount] is the monthly payment, and its [principal_paid] is the
    floating-point difference [payment_amount - interest_paid] (so that
    [interest_paid + principal_paid] is [payment_amount] up to rounding). *)
Theorem loan_schedule_entries `{Libm}
    (principal interest_rate : float) (years : Z) (d : loan_data) :
  calculate_loan_payment principal interest_rate years = Success d ->
  forall e, e ∈ schedule d ->
    (0 <=? remaining_balance e)%float = true /\
    payment_amount e = monthly_payment d /\
    principal_paid e = (payment_amount e - interest_paid e)%float.
Proof.
  intros Hd. destruct (calculate_loan_payment_inv _ _ _ _ Hd) as (payment & n & Hpay & Hn).
  rewrite (calculate_loan_payment_success _ _ _ _ _ Hpay Hn) in Hd.
  injection Hd as <-. simpl.
  apply Forall_forall, Forall_take, Forall_list_filter.
  apply (amortization_shape payment).
Qed.

Lemma loan_schedule_entries_witness :
  exists d,
    @calculate_loan_payment example_libm 1000%float 75%float 1 = Success d /\
    forall e, e ∈ schedule d ->
      (0 <=? remaining_balance e)%float = true /\
      payment_amount e = monthly_payment d /\
      principal_paid e = (payment_amount e - interest_paid e)%float.
Proof.
  eexists. split; [reflexivity |].
  apply (@loan_schedule_entries example_libm 1000%float 75%float 1). reflexivity.
Defined.

(** The power the example below takes is exact: [1.0625 ** 12] is
    [17 ^ 12 / 2 ^ 48], a binary64 number. *)
Lemma example_power_exact :
  @float_pow example_libm 1.0625%float 12 =
  Ok (582622237229761 / 281474976710656)%float.
Proof. reflexivity. Qed.

(** C7 as stated fails on rounding: for a loan of 1000 at 75% over one year
    the fifth returned entry has [interest_paid + principal_paid] different
    from [payment_amount]. The last returned entry is that of payment 10, and
    its [remaining_balance] is not zero. *)
Lemma loan_entry_sum_is_rounded :
  match @calculate_loan_payment example_libm 1000%float 75%float 1 with
  | Success d =>
      (fun e => PrimFloat.eqb (interest_paid e + principal_paid e)%float (payment_amount e))
        <$> (schedule d !! 4%nat) = Some false /\
      (fun e => (payment_number e, PyFloat.is_zero (remaining_balance e)))
        <$> last (schedule d) = Some (10, false)
  | Error _ => False
  end.
Proof. vm_compute. split; reflexivity. Qed.

(** ** Ticker extraction *)

Lemma ticker_loop (words acc : list string) :
  foldl ticker_step acc words =
  acc ++ List.filter ticker_test (map (PyStr.filter_chars PyStr.isalnum_char) words).
Proof.
  revert acc. induction words as [| word words IH]; intros acc; simpl.
  - now rewrite app_nil_r.
  - rewrite IH. unfold ticker_step, ticker_test.
    destruct (_ && _ && _); simpl; [now rewrite <- app_assoc | reflexivity].
Qed.

(** The source upper-cases the whole query before it splits it: what it
    returns are the specification's candidates of the upper-cased query. *)
Lemma extract_ticker_symbols_upper (query : string) :
  _extract_ticker_symbols query = spec_ticker_candidates (PyStr.upper query).
Proof.
  unfold _extract_ticker_symbols, spec_ticker_candidates. rewrite ticker_loop. simpl.
  apply List.filter_ext. intros word. unfold ticker_test.
  destruct (PyStr.isalpha word), (PyStr.len word <=? 5), (PyStr.eqb word (PyStr.upper word));
    reflexivity.
Qed.

(** C2. On the query of the specification's example the source returns
    every word of at most five letters, upper-cased, where the contract keeps
    [AAPL] alone. *)
Theorem extract_ticker_symbols_example :
  _extract_ticker_symbols "What is the price of AAPL today?" =
    ["WHAT"; "IS"; "THE"; "PRICE"; "OF"; "AAPL"; "TODAY"] /\
  spec_ticker_candidates "What is the price of AAPL today?" = ["AAPL"].
Proof. split; vm_compute; reflexivity. Qed.

(** ** Parameter extractors *)

Lemma truthy_is_not_none (v : json) : Py.truthy v = true -> Py.is_not_none v = true.
Proof. destruct v; simpl; intros Hv; try reflexivity; discriminate Hv. Qed.

(** Case analysis on the next field an extractor looks up in [H]. *)
Ltac split_lookup H E :=
  match type of H with
  | context [?fields !! ?key] =>
      destruct (fields !! key) as [? |] eqn:E; cbn in H; try discriminate H
  end.

Ltac split_test H test N :=
  match type of H with
  | context [test ?v] => destruct (test v) eqn:N; cbn in H; try discriminate H
  end.

Ltac split_conversion H C :=
  match type of H with
  | context [Py.int ?v] => destruct (Py.int v) eqn:C; cbn in H; try discriminate H
  | context [Py.float ?v] => destruct (Py.float v) eqn:C; cbn in H; try discriminate H
  end.

Ltac split_conversions H := repeat (let C := fresh "C" in split_conversion H C).

Section ExtractorFacts.

Context `{Builtins}.

Lemma investment_extracted (query : string) (fields : gmap string json)
    (p : InvestmentParams.t) :
  _extract_investment_parameters query (FirstChoice (Ok (JObject fields))) = Some p <->
  converts_to Py.float fields "initial_investment" (InvestmentParams.initial_investment p) /\
  converts_to Py.float fields "monthly_contribution" (InvestmentParams.monthly_contribution p) /\
  converts_to Py.float fields "annual_return" (InvestmentParams.annual_return p) /\
  converts_to Py.int fields "years" (InvestmentParams.years p).
Proof.
  unfold _extract_investment_parameters, float_item, int_item, converts_to. cbn.
  split.
  - intros Heq.
    split_lookup Heq E1. split_test Heq Py.is_not_none N1.
    split_lookup Heq E2. split_test Heq Py.is_not_none N2.
    split_lookup Heq E3. split_test Heq Py.is_not_none N3.
    split_lookup Heq E4. split_test Heq Py.is_not_none N4.
    split_conversions Heq.
    injection Heq as <-. cbn.
    split; [| split; [| split]]; eexists; (split; [reflexivity | split; assumption]).
  - intros ((v1 & E1 & N1 & C1) & (v2 & E2 & N2 & C2) & (v3 & E3 & N3 & C3) &
            (v4 & E4 & N4 & C4)).
    rewrite E1, E2, E3, E4. cbn. rewrite N1, N2, N3, N4. cbn.
    rewrite C1, C2, C3, C4. cbn. destruct p; reflexivity.
Qed.

Lemma loan_extracted_sound (query : string) (fields : gmap string json)
    (p : LoanParams.t) :
  _extract_loan_parameters query (FirstChoice (Ok (JObject fields))) = Some p ->
  converts_to Py.float fields "principal" (LoanParams.principal p) /\
  converts_to Py.float fields "interest_rate" (LoanParams.interest_rate p) /\
  converts_to Py.int fields "years" (LoanParams.years p).
Proof.
  unfold _extract_loan_parameters, float_item, int_item, converts_to. cbn.
  intros Heq.
  split_lookup Heq E1. split_test Heq Py.truthy N1.
  split_lookup Heq E2. split_test Heq Py.truthy N2.
  split_lookup Heq E3. split_test Heq Py.truthy N3.
  split_conversions Heq.
  injection Heq as <-. cbn. apply truthy_is_not_none in N1, N2, N3.
  split; [| split]; eexists; (split; [reflexivity | split; assumption]).
Qed.

Lemma loan_extracted_complete (query : string) (fields : gmap string json)
    (principal interest_rate : float) (years : Z) :
  truthy_converts_to Py.float fields "principal" principal ->
  truthy_converts_to Py.float fields "interest_rate" interest_rate ->
  truthy_converts_to Py.int fields "years" years ->
  _extract_loan_parameters query (FirstChoice (Ok (JObject fields))) =
  Some {| LoanParams.principal := principal;
          LoanParams.interest_rate := interest_rate;
          LoanParams.years := years |}.
Proof.
  intros (v1 & E1 & N1 & C1) (v2 & E2 & N2 & C2) (v3 & E3 & N3 & C3).
  unfold _extract_loan_parameters, float_item, int_item. cbn.
  rewrite E1, E2, E3. cbn. rewrite N1, N2, N3. cbn. rewrite C1, C2, C3. reflexivity.
Qed.

Lemma retirement_extracted (query : string) (fields : gmap string json)
    (p : RetirementParams.t) :
  _extract_retirement_parameters query (FirstChoice (Ok (JObject fields))) = Some p <->
  Py.int (default (JInt 30) (fields !! "current_age")) = Ok (RetirementParams.current_age p) /\
  Py.int (default (JInt 65) (fields !! "retirement_age"))
    = Ok (RetirementParams.retirement_age p) /\
  Py.int (default (JInt 90) (fields !! "life_expectancy"))
    = Ok (RetirementParams.life_expectancy p) /\
  Py.float (default (JInt 50000) (fields !! "annual_expenses"))
    = Ok (RetirementParams.annual_expenses p) /\
  Py.float (default (JFloat 2.5) (fields !! "inflation_rate"))
    = Ok (RetirementParams.inflation_rate p) /\
  Py.float (default (JInt 0) (fields !! "current_savings"))
    = Ok (RetirementParams.current_savings p) /\
  Py.float (default (JInt 500) (fields !! "monthly_contribution"))
    = Ok (RetirementParams.monthly_contribution p) /\
  Py.float (default (JInt 7) (fields !! "expected_return"))
    = Ok (RetirementParams.expected_return p).
Proof.
  unfold _extract_retirement_parameters, float_get, int_get. cbn.
  split.
  - intros Heq. split_conversions Heq.
    injection Heq as <-. cbn. repeat split; reflexivity.
  - intros (C1 & C2 & C3 & C4 & C5 & C6 & C7 & C8).
    rewrite C1, C2, C3, C4, C5, C6, C7, C8. cbn. destruct p; reflexivity.
Qed.

Lemma retirement_defaults (query : string) :
  _extract_retirement_parameters query (FirstChoice (Ok (JObject ∅))) =
  Some {| RetirementParams.current_age := 30;
          RetirementParams.retirement_age := 65;
          RetirementParams.life_expectancy := 90;
          RetirementParams.annual_expenses := 50000%float;
          RetirementParams.inflation_rate := 2.5%float;
          RetirementParams.current_savings := 0%float;
          RetirementParams.monthly_contribution := 500%float;
          RetirementParams.expected_return := 7%float |}.
Proof. reflexivity. Qed.

Lemma is_absent_lookup (fields : gmap string json) (key : string) :
  is_absent fields key = true -> fields !! key = None.
Proof. unfold is_absent. destruct (fields !! key); [discriminate | reflexivity]. Qed.

Lemma absent_fields_default (query : string) (fields : gmap string json) :
  forallb (is_absent fields) retirement_fields = true ->
  _extract_retirement_parameters query (FirstChoice (Ok (JObject fields))) =
  Some {| RetirementParams.current_age := 30;
          RetirementParams.retirement_age := 65;
          RetirementParams.life_expectancy := 90;
          RetirementParams.annual_expenses := 50000%float;
          RetirementParams.inflation_rate := 2.5%float;
          RetirementParams.current_savings := 0%float;
          RetirementParams.monthly_contribution := 500%float;
          RetirementParams.expected_return := 7%float |}.
Proof.
  intros Habsent. cbn [forallb retirement_fields] in Habsent.
  repeat (let Hkey := fresh "Hkey" in
          apply andb_prop in Habsent as [Hkey Habsent]; apply is_absent_lookup in Hkey).
  apply retirement_extracted. cbn.
  rewrite Hkey, Hkey0, Hkey1, Hkey2, Hkey3, Hkey4, Hkey5, Hkey6. cbn.
  repeat split; reflexivity.
Qed.

(** An extractor that returns [None] leaves the router without a function
    call. *)
Lemma no_parameters_no_call (query : string) (extraction : llm_reply (exc json)) :
  any_keyword query stock_keywords = false ->
  (any_keyword query loan_keywords = true ->
   _extract_loan_parameters query extraction = None ->
   identify_function_call query extraction = None) /\
  (any_keyword query loan_keywords = false ->
   any_keyword query investment_keywords = true ->
   _extract_investment_parameters query extraction = None ->
   identify_function_call query extraction = None).
Proof.
  intros Hstock. unfold identify_function_call. rewrite Hstock. split.
  - intros -> ->. reflexivity.
  - intros -> -> ->. reflexivity.
Qed.

End ExtractorFacts.

(** C4 (amended). On a parsed JSON object, [_extract_investment_parameters]
    returns a parameter mapping exactly when its four required fields are
    present, not null and converted by [float()] / [int()], and [None]
    otherwise. [_extract_loan_parameters] returns a mapping only if its three
    required fields are present, not null and converted, and it does return
    one when the three fields are present, truthy and converted. A returned
    mapping holds the converted values, and [None] leaves the router without
    a function call. *)
Theorem required_fields_extraction `{Builtins}
    (query : string) (fields : gmap string json) :
  (forall p,
      _extract_investment_parameters query (FirstChoice (Ok (JObject fields))) = Some p <->
      converts_to Py.float fields "initial_investment" (InvestmentParams.initial_investment p) /\
      converts_to Py.float fields "monthly_contribution"
        (InvestmentParams.monthly_contribution p) /\
      converts_to Py.float fields "annual_return" (InvestmentParams.annual_return p) /\
      converts_to Py.int fields "years" (InvestmentParams.years p)) /\
  (forall p,
      _extract_loan_parameters query (FirstChoice (Ok (JObject fields))) = Some p ->
      converts_to Py.float fields "principal" (LoanParams.principal p) /\
      converts_to Py.float fields "interest_rate" (LoanParams.interest_rate p) /\
      converts_to Py.int fields "years" (LoanParams.years p)) /\
  (forall principal interest_rate years,
      truthy_converts_to Py.float fields "principal" principal ->
      truthy_converts_to Py.float fields "interest_rate" interest_rate ->
      truthy_converts_to Py.int fields "years" years ->
      _extract_loan_parameters query (FirstChoice (Ok (JObject fields))) =
      Some {| LoanParams.principal := principal;
              LoanParams.interest_rate := interest_rate;
              LoanParams.years := years |}) /\
  (forall extraction,
      any_keyword query stock_keywords = false ->
      (any_keyword query loan_keywords = true ->
       _extract_loan_parameters query extraction = None ->
       identify_function_call query extraction = None) /\
      (any_keyword query loan_keywords = false ->
       any_keyword query investment_keywords = true ->
       _extract_investment_parameters query extraction = None ->
       identify_function_call query extraction = None)).
Proof.
  split; [intros p; apply investment_extracted |].
  split; [intros p; apply loan_extracted_sound |].
  split; [intros; apply loan_extracted_complete; assumption |].
  intros extraction. apply no_parameters_no_call.
Qed.

(** C4 as stated fails: a parsed object whose four investment fields are
    all present and not null, one of them not a number, yields [None]. *)
Lemma non_null_fields_rejected :
  forallb (present_non_null example_unreadable_investment_reply)
    ["initial_investment"; "monthly_contribution"; "annual_return"; "years"] = true /\
  @_extract_investment_parameters example_builtins "grow my savings"
    (FirstChoice (Ok (JObject example_unreadable_investment_reply))) = None.
Proof. split; vm_compute; reflexivity. Qed.

(** The loan extractor tests its fields for truth, not against [None]: a
    loan at a zero rate, all of whose fields are present and not null, is
    rejected. *)
Lemma zero_rate_loan_rejected :
  forallb (present_non_null example_zero_rate_loan_reply)
    ["principal"; "interest_rate"; "years"] = true /\
  @_extract_loan_parameters example_builtins "a loan"
    (FirstChoice (Ok (JObject example_zero_rate_loan_reply))) = None.
Proof. split; vm_compute; reflexivity. Qed.

(** C5 (amended). On a parsed JSON object in which none of the eight
    fields is [null], [_extract_retirement_parameters] returns a complete
    parameter mapping exactly when, for each of the eight fields, the value
    of the field, or its hard-coded default when the field is absent, is
    converted by [int()] / [float()]; the mapping holds the converted values.
    On an object that holds none of the eight fields, the empty object among
    them, it returns the eight defaults. *)
Theorem retirement_extraction_defaults `{Builtins}
    (query : string) (fields : gmap string json) :
  forallb (is_not_null fields) retirement_fields = true ->
  (forall p,
      _extract_retirement_parameters query (FirstChoice (Ok (JObject fields))) = Some p <->
      Py.int (default (JInt 30) (fields !! "current_age"))
        = Ok (RetirementParams.current_age p) /\
      Py.int (default (JInt 65) (fields !! "retirement_age"))
        = Ok (RetirementParams.retirement_age p) /\
      Py.int (default (JInt 90) (fields !! "life_expectancy"))
        = Ok (RetirementParams.life_expectancy p) /\
      Py.float (default (JInt 50000) (fields !! "annual_expenses"))
        = Ok (RetirementParams.annual_expenses p) /\
      Py.float (default (JFloat 2.5) (fields !! "inflation_rate"))
        = Ok (RetirementParams.inflation_rate p) /\
      Py.float (default (JInt 0) (fields !! "current_savings"))
        = Ok (RetirementParams.current_savings p) /\
      Py.float (default (JInt 500) (fields !! "monthly_contribution"))
        = Ok (RetirementParams.monthly_contribution p) /\
      Py.float (default (JInt 7) (fields !! "expected_return"))
        = Ok (RetirementParams.expected_return p)) /\
  (forallb (is_absent fields) retirement_fields = true ->
   _extract_retirement_parameters query (FirstChoice (Ok (JObject fields))) =
   Some {| RetirementParams.current_age := 30;
           RetirementParams.retirement_age := 65;
           RetirementParams.life_expectancy := 90;
           RetirementParams.annual_expenses := 50000%float;
           RetirementParams.inflation_rate := 2.5%float;
           RetirementParams.current_savings := 0%float;
           RetirementParams.monthly_contribution := 500%float;
           RetirementParams.expected_return := 7%float |}).
Proof.
  intros _. split; [intros p; apply retirement_extracted |].
  intros Habsent. apply absent_fields_default, Habsent.
Qed.

Lemma retirement_extraction_defaults_witness :
  forallb (is_not_null example_partial_retirement_reply) retirement_fields = true /\
  @_extract_retirement_parameters example_builtins "when can I retire"
    (FirstChoice (Ok (JObject example_partial_retirement_reply))) =
  Some {| RetirementParams.current_age := 40;
          RetirementParams.retirement_age := 67;
          RetirementParams.life_expectancy := 90;
          RetirementParams.annual_expenses := 50000%float;
          RetirementParams.inflation_rate := 2.5%float;
          RetirementParams.current_savings := 0%float;
          RetirementParams.monthly_contribution := 500%float;
          RetirementParams.expected_return := 7%float |}.
Proof.
  assert (Hfields :
            forallb (is_not_null example_partial_retirement_reply) retirement_fields = true)
    by (vm_compute; reflexivity).
  split; [exact Hfields |].
  apply (proj1 (@retirement_extraction_defaults example_builtins "when can I retire"
                  example_partial_retirement_reply Hfields)).
  repeat split; vm_compute; reflexivity.
Defined.

(** C5 as stated fails: a parsed object with a field that is not a number
    is rejected. *)
Lemma retirement_extraction_rejects :
  @_extract_retirement_parameters example_builtins "when can I retire"
    (FirstChoice (Ok (JObject example_unreadable_retirement_reply))) = None.
Proof. vm_compute. reflexivity. Qed.

(** The extractor also returns [None] on an object that holds [null] under
    a field, the value its prompt asks for when a parameter is not found and
    its comment promises a default for. *)
Lemma null_field_rejected :
  @_extract_retirement_parameters example_builtins "when can I retire"
    (FirstChoice (Ok (JObject example_null_retirement_reply))) = None.
Proof. vm_compute. reflexivity. Qed.

(** ** Intent router *)

(** C3 (amended). When the primary call returns a choice,
    [parse_financial_query] produces at most one function call. Keyword
    presence alone selects the domain, the first in the order stock, loan,
    investment, retirement, budget whose keyword set matches the query, and
    only the selected domain can produce the call: the stock domain produces
    it for the first candidate ticker, if there is one, and each of the other
    four when its extractor returns parameters. No later domain is tried:
    without a matching keyword set, or when the selected domain produces
    nothing, there is no function call. *)
Theorem parse_financial_query_routing `{Builtins}
    (conversation_history : list turn) (query response : string)
    (extraction : llm_reply (exc json)) :
  exists call : option function_call,
    (parse_financial_query conversation_history query (FirstChoice response) extraction).1
      = Parsed query response call /\
    (forall c, call = Some c -> first_keyword_domain query = Some (call_domain c)) /\
    match first_keyword_domain query with
    | Some Stock => call = Call_get_stock_data <$> head (_extract_ticker_symbols query)
    | Some Loan =>
        call = Call_calculate_loan_payment <$> _extract_loan_parameters query extraction
    | Some Investment =>
        call = Call_calculate_investment_growth
                 <$> _extract_investment_parameters query extraction
    | Some Retirement =>
        call = Call_calculate_retirement_needs
                 <$> _extract_retirement_parameters query extraction
    | Some Budget => call = Call_analyze_budget <$> _extract_budget_parameters query extraction
    | None => call = None
    end.
Proof.
  exists (identify_function_call query extraction). split; [reflexivity |].
  unfold identify_function_call, first_keyword_domain.
  cbn [List.find priority_order domain_keywords].
  destruct (any_keyword query stock_keywords).
  { destruct (_extract_ticker_symbols query); split;
      first [reflexivity | intros c [=]; subst; reflexivity]. }
  destruct (any_keyword query loan_keywords).
  { destruct (_extract_loan_parameters query extraction); split;
      first [reflexivity | intros c [=]; subst; reflexivity]. }
  destruct (any_keyword query investment_keywords).
  { destruct (_extract_investment_parameters query extraction); split;
      first [reflexivity | intros c [=]; subst; reflexivity]. }
  destruct (any_keyword query retirement_keywords).
  { destruct (_extract_retirement_parameters query extraction); split;
      first [reflexivity | intros c [=]; subst; reflexivity]. }
  destruct (any_keyword query budget_keywords).
  { destruct (_extract_budget_parameters query extraction); split;
      first [reflexivity | intros c [=]; subst; reflexivity]. }
  split; [intros c [=] | reflexivity].
Qed.

(** C3 as stated fails: the query below names a loan keyword and a stock
    keyword but no candidate ticker. In the specification's words the stock
    domain is then no match and the loan domain is the first one that
    matches, and the loan extractor does return parameters on the reply; the
    source produces no function call. *)
Lemma stock_keyword_without_ticker :
  spec_first_match "mortgage ticker" = Some Loan /\
  is_Some (@_extract_loan_parameters example_builtins "mortgage ticker"
             (FirstChoice (Ok example_loan_reply))) /\
  (@parse_financial_query example_builtins [] "mortgage ticker"
     (FirstChoice "A mortgage is a loan secured by property.")
     (FirstChoice (Ok example_loan_reply))).1
  = Parsed "mortgage ticker" "A mortgage is a loan secured by property." None.
Proof.
  split; [vm_compute; reflexivity |]. split; [| vm_compute; reflexivity].
  eexists. vm_compute. reflexivity.
Qed.

(** The other four domains do not fire on keyword presence alone either: a
    loan query whose extraction request gets no choice produces no call. *)
Lemma loan_keyword_without_parameters :
  spec_first_match "loan" = Some Loan /\
  (@parse_financial_query example_builtins [] "loan"
     (FirstChoice "Which loan do you have in mind?") NoChoices).1
  = Parsed "loan" "Which loan do you have in mind?" None.
Proof. split; vm_compute; reflexivity. Qed.

(** ** Turn driver *)

Section DriverFacts.

Context `{Builtins} `{Libm} `{Collaborators}.

(** A primary call without choices ends the turn with the error result. *)
Lemma process_query_primary_no_choices (h : list turn) (query : string)
    (extraction : llm_reply (exc json)) (followup : llm_reply string) :
  process_query h query NoChoices extraction followup =
  (Ok (ReplyError "Failed to get response from language model"), h ++ [Turn user query]).
Proof. reflexivity. Qed.

(** A narration call without choices does not: the turn ends with the
    success result that carries the primary response. *)
Lemma process_query_followup_no_choices (h : list turn) (query response dumped : string)
    (extraction : llm_reply (exc json)) (call : function_call) :
  identify_function_call query extraction = Some call ->
  json_dumps (execute call) = Ok dumped ->
  process_query h query (FirstChoice response) extraction NoChoices =
  (Ok (Reply query response None),
   h ++ [Turn user query; Turn assistant response;
         Turn system ("Function " +:+ function_name call +:+ " returned: " +:+ dumped)]).
Proof.
  intros Hcall Hdumps. unfold process_query, parse_financial_query.
  rewrite Hcall, Hdumps. rewrite <- !app_assoc. reflexivity.
Qed.

End DriverFacts.

(** C1. The primary call without choices ends the turn with
    [{status: error, message: "Failed to get response from language
    model"}]. The narration call without choices, after a calculator has
    run, does not: [process_query] returns a success result with the primary
    response and no function result. *)
Theorem followup_without_choices_is_success :
  (example_process_query [] "How will my investment grow?" NoChoices
     (FirstChoice (Ok example_investment_reply)) NoChoices).1
  = Ok (ReplyError "Failed to get response from language model") /\
  example_process_query [] "How will my investment grow?"
    (FirstChoice "Let me work that out.") (FirstChoice (Ok example_investment_reply)) NoChoices
  = (Ok (Reply "How will my investment grow?" "Let me work that out." None),
     [Turn user "How will my investment grow?";
      Turn assistant "Let me work that out.";
      Turn system "Function calculate_investment_growth returned: {...}"]).
Proof. split; vm_compute; reflexivity. Qed.

(** *** The transcript *)

Lemma last_assistant_below_spec (h : list turn) (n : nat) :
  match last_assistant_below h n with
  | Some i =>
      (i < n)%nat /\
      (exists t, h !! i = Some t /\ turn_role t = assistant) /\
      (forall j t, (i < j < n)%nat -> h !! j = Some t -> turn_role t <> assistant)
  | None => forall j t, (j < n)%nat -> h !! j = Some t -> turn_role t <> assistant
  end.
Proof.
  induction n as [| n IH]; simpl.
  - intros j t Hj. lia.
  - destruct (h !! n) as [t |] eqn:Hn.
    + destruct (decide (turn_role t = assistant)) as [Hrole | Hrole].
      * split; [lia |]. split; [exists t; split; assumption |]. intros j t' Hj. lia.
      * destruct (last_assistant_below h n) as [i |].
        -- destruct IH as (Hi & Ht & Hafter). split; [lia |]. split; [exact Ht |].
           intros j t' Hj Hjt. destruct (decide (j = n)) as [-> | Hne].
           ++ rewrite Hn in Hjt. injection Hjt as <-. exact Hrole.
           ++ apply (Hafter j t'); [lia | exact Hjt].
        -- intros j t' Hj Hjt. destruct (decide (j = n)) as [-> | Hne].
           ++ rewrite Hn in Hjt. injection Hjt as <-. exact Hrole.
           ++ apply (IH j t'); [lia | exact Hjt].
    + destruct (last_assistant_below h n) as [i |].
      * destruct IH as (Hi & Ht & Hafter). split; [lia |]. split; [exact Ht |].
        intros j t' Hj Hjt. destruct (decide (j = n)) as [-> | Hne].
        -- rewrite Hn in Hjt. discriminate Hjt.
        -- apply (Hafter j t'); [lia | exact Hjt].
      * intros j t' Hj Hjt. destruct (decide (j = n)) as [-> | Hne].
        -- rewrite Hn in Hjt. discriminate Hjt.
        -- apply (IH j t'); [lia | exact Hjt].
Qed.

(** [update_last_assistant] overwrites the content of the last assistant
    turn and touches no other turn; it appends an assistant turn only when
    the transcript holds none. *)
Lemma update_last_assistant_spec (h : list turn) (updated : string) :
  (exists i t,
      h !! i = Some t /\ turn_role t = assistant /\
      (forall j t', (i < j)%nat -> h !! j = Some t' -> turn_role t' <> assistant) /\
      update_last_assistant h updated = <[i := Turn assistant updated]> h /\
      (forall j, j <> i -> update_last_assistant h updated !! j = h !! j)) \/
  ((forall j t, h !! j = Some t -> turn_role t <> assistant) /\
   update_last_assistant h updated = h ++ [Turn assistant updated]).
Proof.
  unfold update_last_assistant.
  pose proof (last_assistant_below_spec h (length h)) as Hspec.
  destruct (last_assistant_below h (length h)) as [i |].
  - left. destruct Hspec as (Hi & (t & Hit & Hrole) & Hafter).
    exists i, t. split; [exact Hit |]. split; [exact Hrole |]. split.
    + intros j t' Hj Hjt. apply (Hafter j t'); [| exact Hjt].
      apply lookup_lt_Some in Hjt. lia.
    + assert (Heq : alter (fun t0 => Turn (turn_role t0) updated) i h
                    = <[i := Turn assistant updated]> h).
      { apply list_eq. intros j. destruct (decide (j = i)) as [-> | Hne].
        - rewrite list_lookup_alter_eq, Hit, list_lookup_insert_eq by exact Hi.
          simpl. now rewrite Hrole.
        - rewrite list_lookup_alter_ne, list_lookup_insert_ne by congruence. reflexivity. }
      split; [exact Heq |].
      intros j Hne. rewrite Heq. apply list_lookup_insert_ne. congruence.
  - right. split; [| reflexivity].
    intros j t Hjt. apply (Hspec j t); [| exact Hjt]. apply lookup_lt_Some in Hjt. exact Hjt.
Qed.

(** After the three turns of a narrated query, the last assistant turn is
    the one the query appended. *)
Lemma update_after_turn (h : list turn) (query response message updated : string) :
  update_last_assistant
    (h ++ [Turn user query; Turn assistant response; Turn system message]) updated =
  h ++ [Turn user query; Turn assistant updated; Turn system message].
Proof.
  unfold update_last_assistant. rewrite length_app. simpl length.
  replace (length h + 3)%nat with (S (S (S (length h)))) by lia.
  cbn [last_assistant_below].
  rewrite (lookup_app_r h _ (S (S (length h)))) by lia.
  replace (S (S (length h)) - length h)%nat with 2%nat by lia. cbn.
  rewrite (lookup_app_r h _ (S (length h))) by lia.
  replace (S (length h) - length h)%nat with 1%nat by lia. cbn.
  replace (S (length h)) with (length h + 1)%nat by lia.
  destruct (decide (system = assistant)) as [? | _]; [discriminate |].
  destruct (decide (assistant = assistant)) as [_ | ?]; [| congruence].
  rewrite alter_app_r. reflexivity.
Qed.

(** C8. When a calculator has run and the narration call returns a choice,
    [process_query] leaves every turn the transcript held before the call
    unchanged. It appends the user turn, the assistant turn of the primary
    response and the system turn of the function result, and then replaces in
    place the content of the most recent assistant turn, which is the one it
    appended. The replacement itself overwrites the last assistant turn of
    any transcript without touching another turn, and appends an assistant
    turn only when there is none. *)
Theorem process_query_transcript_frame `{Builtins} `{Libm} `{Collaborators}
    (h : list turn) (query : string) (primary : llm_reply string)
    (extraction : llm_reply (exc json)) (updated query' response' : string)
    (result : function_result stock_data budget_data) (h' : list turn) :
  process_query h query primary extraction (FirstChoice updated)
    = (Ok (Reply query' response' (Some result)), h') ->
  exists response message,
    primary = FirstChoice response /\
    response' = updated /\
    h' = update_last_assistant
           (h ++ [Turn user query; Turn assistant response; Turn system message]) updated /\
    h' = h ++ [Turn user query; Turn assistant updated; Turn system message] /\
    (forall i t, h !! i = Some t -> h' !! i = Some t) /\
    (forall (l : list turn) (u : string),
        (exists i t,
            l !! i = Some t /\ turn_role t = assistant /\
            (forall j t', (i < j)%nat -> l !! j = Some t' -> turn_role t' <> assistant) /\
            update_last_assistant l u = <[i := Turn assistant u]> l /\
            (forall j, j <> i -> update_last_assistant l u !! j = l !! j)) \/
        ((forall j t, l !! j = Some t -> turn_role t <> assistant) /\
         update_last_assistant l u = l ++ [Turn assistant u])).
Proof.
  intros Heq. unfold process_query, parse_financial_query in Heq.
  destruct primary as [e | | response]; try discriminate Heq.
  destruct (identify_function_call query extraction) as [call |]; [| discriminate Heq].
  destruct (json_dumps (execute call)) as [dumped | e]; [| discriminate Heq].
  rewrite <- !app_assoc in Heq. cbn [app] in Heq. rewrite update_after_turn in Heq.
  injection Heq as _ <- _ <-.
  exists response, ("Function " +:+ function_name call +:+ " returned: " +:+ dumped).
  split; [reflexivity |]. split; [reflexivity |].
  split; [now rewrite update_after_turn |]. split; [reflexivity |].
  split; [| apply update_last_assistant_spec].
  intros i t Hi. apply lookup_app_l_Some, Hi.
Qed.

Lemma process_query_transcript_frame_witness :
  exists result h',
    example_process_query example_history "How will my investment grow?"
      (FirstChoice "Let me work that out.") (FirstChoice (Ok example_investment_reply))
      (FirstChoice "Without contributions or returns it stays at 1000.")
    = (Ok (Reply "How will my investment grow?"
             "Without contributions or returns it stays at 1000." (Some result)), h') /\
    (forall i t, example_history !! i = Some t -> h' !! i = Some t) /\
    h' = example_history ++
         [Turn user "How will my investment grow?";
          Turn assistant "Without contributions or returns it stays at 1000.";
          Turn system "Function calculate_investment_growth returned: {...}"].
Proof.
  eexists. eexists. split; [vm_compute; reflexivity |].
  destruct (@process_query_transcript_frame example_builtins example_libm
              example_collaborators example_history "How will my investment grow?"
              (FirstChoice "Let me work that out.") (FirstChoice (Ok example_investment_reply))
              "Without contributions or returns it stays at 1000." _ _ _ _ eq_refl)
    as (response & message & _ & _ & _ & _ & Hframe & _).
  split; [exact Hframe | reflexivity].
Defined.

(** * Further properties of the code *)

(** ** Ticker extraction and keyword matching *)

Lemma upper_char_idempotent (c : ascii) : PyStr.upper_char (PyStr.upper_char c) = PyStr.upper_char c.
Proof. destruct c as [[] [] [] [] [] [] [] []]; reflexivity. Qed.

Lemma upper_lower_char (c : ascii) : PyStr.upper_char (PyStr.lower_char c) = PyStr.upper_char c.
Proof. destruct c as [[] [] [] [] [] [] [] []]; reflexivity. Qed.

Lemma lower_upper_char (c : ascii) : PyStr.lower_char (PyStr.upper_char c) = PyStr.lower_char c.
Proof. destruct c as [[] [] [] [] [] [] [] []]; reflexivity. Qed.

Lemma lower_char_idempotent (c : ascii) : PyStr.lower_char (PyStr.lower_char c) = PyStr.lower_char c.
Proof. destruct c as [[] [] [] [] [] [] [] []]; reflexivity. Qed.

Lemma alpha_fixed_by_upper (c : ascii) :
  PyStr.isalpha_char c = true -> PyStr.upper_char c = c -> PyStr.is_upper_char c = true.
Proof. destruct c as [[] [] [] [] [] [] [] []]; intros Ha Hu; try reflexivity; discriminate. Qed.

Lemma map_chars_compose (f g h : ascii -> ascii) (s : string) :
  (forall c, f (g c) = h c) -> PyStr.map_chars f (PyStr.map_chars g s) = PyStr.map_chars h s.
Proof. intros Hc. induction s as [| c s IH]; simpl; [reflexivity |]. now rewrite Hc, IH. Qed.

Lemma upper_upper (s : string) : PyStr.upper (PyStr.upper s) = PyStr.upper s.
Proof. apply map_chars_compose, upper_char_idempotent. Qed.

Lemma upper_lower (s : string) : PyStr.upper (PyStr.lower s) = PyStr.upper s.
Proof. apply map_chars_compose, upper_lower_char. Qed.

Lemma lower_upper (s : string) : PyStr.lower (PyStr.upper s) = PyStr.lower s.
Proof. apply map_chars_compose, lower_upper_char. Qed.

Lemma lower_lower (s : string) : PyStr.lower (PyStr.lower s) = PyStr.lower s.
Proof. apply map_chars_compose, lower_char_idempotent. Qed.

Lemma upper_fixed_letters (s : string) :
  PyStr.all_chars PyStr.isalpha_char s = true -> PyStr.upper s = s ->
  PyStr.all_chars PyStr.is_upper_char s = true.
Proof.
  induction s as [| c s IH]; simpl; [reflexivity |].
  intros [Hc Hs]%andb_prop [= Hu Hrest].
  rewrite (alpha_fixed_by_upper c Hc Hu). apply IH; assumption.
Qed.

(** X1. On an ASCII query, every symbol [_extract_ticker_symbols] returns
    is made of one to five upper-case letters [A] to [Z]. *)
Theorem ticker_symbols_shape (query : string) :
  is_ascii query = true ->
  Forall (fun word =>
            (1 <= String.length word <= 5)%nat /\
            PyStr.all_chars PyStr.is_upper_char word = true)
    (_extract_ticker_symbols query).
Proof.
  intros _. unfold _extract_ticker_symbols. rewrite ticker_loop. simpl.
  apply Forall_forall. intros word Hword.
  apply list_elem_of_In, List.filter_In in Hword. destruct Hword as [_ Htest].
  unfold ticker_test, PyStr.isalpha, PyStr.len, PyStr.eqb in Htest.
  apply andb_prop in Htest as [Htest Hupper]. apply andb_prop in Htest as [Halpha Hlen].
  apply andb_prop in Halpha as [Hne Halpha].
  apply String.eqb_eq in Hupper. apply Z.leb_le in Hlen.
  split.
  - destruct word; [discriminate Hne | simpl in *; lia].
  - apply upper_fixed_letters; [exact Halpha | now symmetry].
Qed.

Lemma ticker_symbols_shape_witness :
  is_ascii "What is the price of AAPL today?" = true /\
  Forall (fun word =>
            (1 <= String.length word <= 5)%nat /\
            PyStr.all_chars PyStr.is_upper_char word = true)
    (_extract_ticker_symbols "What is the price of AAPL today?").
Proof.
  split; [reflexivity |].
  apply (ticker_symbols_shape "What is the price of AAPL today?"). reflexivity.
Defined.

(** X2. On an ASCII query the extraction does not look at the case of the
    letters: the query, its upper-cased form and its lower-cased form give
    the same symbols, so a lower-case word is a candidate as much as an
    upper-case one. *)
Theorem ticker_symbols_ignore_case (query : string) :
  is_ascii query = true ->
  _extract_ticker_symbols (PyStr.upper query) = _extract_ticker_symbols query /\
  _extract_ticker_symbols (PyStr.lower query) = _extract_ticker_symbols query.
Proof.
  intros _. unfold _extract_ticker_symbols. now rewrite upper_upper, upper_lower.
Qed.

Lemma ticker_symbols_ignore_case_witness :
  is_ascii "Buy aapl or Msft?" = true /\
  _extract_ticker_symbols "BUY AAPL OR MSFT?" = _extract_ticker_symbols "Buy aapl or Msft?" /\
  _extract_ticker_symbols "buy aapl or msft?" = _extract_ticker_symbols "Buy aapl or Msft?" /\
  _extract_ticker_symbols "Buy aapl or Msft?" = ["BUY"; "AAPL"; "OR"; "MSFT"].
Proof.
  split; [reflexivity |].
  destruct (ticker_symbols_ignore_case "Buy aapl or Msft?" eq_refl) as [Hupper Hlower].
  split; [exact Hupper | split; [exact Hlower | reflexivity]].
Defined.

(** X3. Neither does the router: for an ASCII query and the same extraction
    reply, the query and its upper-cased or lower-cased form produce the same
    function call. *)
Theorem routing_ignores_case `{Builtins} (query : string)
    (extraction : llm_reply (exc json)) :
  is_ascii query = true ->
  identify_function_call (PyStr.upper query) extraction
    = identify_function_call query extraction /\
  identify_function_call (PyStr.lower query) extraction
    = identify_function_call query extraction.
Proof.
  intros _. unfold identify_function_call, any_keyword.
  unfold _extract_ticker_symbols. rewrite upper_upper, upper_lower.
  now rewrite lower_upper, lower_lower.
Qed.

Lemma routing_ignores_case_witness :
  is_ascii "Stock price of msft" = true /\
  @identify_function_call example_builtins "STOCK PRICE OF MSFT" NoChoices
    = @identify_function_call example_builtins "Stock price of msft" NoChoices /\
  @identify_function_call example_builtins "stock price of msft" NoChoices
    = @identify_function_call example_builtins "Stock price of msft" NoChoices /\
  @identify_function_call example_builtins "Stock price of msft" NoChoices
    = Some (Call_get_stock_data "STOCK").
Proof.
  split; [reflexivity |].
  destruct (@routing_ignores_case example_builtins "Stock price of msft" NoChoices eq_refl)
    as [Hupper Hlower].
  split; [exact Hupper | split; [exact Hlower | reflexivity]].
Defined.

(** ** Parameter extractors *)




Section MoreExtractorFacts.

Context `{Builtins}.

Lemma loan_extracted_truthy (query : string) (fields : gmap string json)
    (p : LoanParams.t) :
  _extract_loan_parameters query (FirstChoice (Ok (JObject fields))) = Some p ->
  truthy_converts_to Py.float fields "principal" (LoanParams.principal p) /\
  truthy_converts_to Py.float fields "interest_rate" (LoanParams.interest_rate p) /\
  truthy_converts_to Py.int fields "years" (LoanParams.years p).
Proof.
  unfold _extract_loan_parameters, float_item, int_item, truthy_converts_to. cbn.
  intros Heq.
  split_lookup Heq E1. split_test Heq Py.truthy N1.
  split_lookup Heq E2. split_test Heq Py.truthy N2.
  split_lookup Heq E3. split_test Heq Py.truthy N3.
  split_conversions Heq.
  injection Heq as <-. cbn.
  split; [| split]; eexists; (split; [reflexivity | split; assumption]).
Qed.

Lemma budget_extracted (query : string) (fields : gmap string json)
    (p : BudgetParams.t) :
  _extract_budget_parameters query (FirstChoice (Ok (JObject fields))) = Some p <->
  truthy_converts_to Py.float fields "income" (BudgetParams.income p) /\
  fields !! "expenses" = Some (BudgetParams.expenses_dict p) /\
  Py.truthy (BudgetParams.expenses_dict p) = true.
Proof.
  unfold _extract_budget_parameters, float_item, truthy_converts_to. cbn.
  split.
  - intros Heq.
    split_lookup Heq E1. split_test Heq Py.truthy N1.
    split_lookup Heq E2. split_test Heq Py.truthy N2.
    split_conversions Heq.
    injection Heq as <-. cbn.
    split; [eexists; split; [reflexivity | split; assumption] |].
    split; [reflexivity | assumption].
  - intros ((v1 & E1 & N1 & C1) & E2 & N2).
    rewrite E1, E2. cbn. rewrite N1, N2. cbn. rewrite C1. cbn. destruct p; reflexivity.
Qed.

End MoreExtractorFacts.

(** X5. [_extract_loan_parameters] tests its three fields for truth: on a
    parsed object it returns parameters exactly when [principal],
    [interest_rate] and [years] are present, truthy and converted. A field
    that is absent, [null], [false], zero, or an empty string makes it return
    [None] - a loan at a zero interest rate included. *)
Theorem loan_extraction_needs_truthy_fields `{Builtins}
    (query : string) (fields : gmap string json) :
  (forall p,
      _extract_loan_parameters query (FirstChoice (Ok (JObject fields))) = Some p <->
      truthy_converts_to Py.float fields "principal" (LoanParams.principal p) /\
      truthy_converts_to Py.float fields "interest_rate" (LoanParams.interest_rate p) /\
      truthy_converts_to Py.int fields "years" (LoanParams.years p)) /\
  (forall key,
      key ∈ ["principal"; "interest_rate"; "years"] ->
      Py.truthy (default JNull (fields !! key)) = false ->
      _extract_loan_parameters query (FirstChoice (Ok (JObject fields))) = None).
Proof.
  split.
  - intros p. split; [apply loan_extracted_truthy |].
    intros (H1 & H2 & H3). destruct p. now apply loan_extracted_complete.
  - intros key Hkey Hfalse.
    destruct (_extract_loan_parameters query (FirstChoice (Ok (JObject fields))))
      as [p |] eqn:Hp; [| reflexivity].
    apply loan_extracted_truthy in Hp.
    destruct Hp as ((v1 & E1 & N1 & _) & (v2 & E2 & N2 & _) & (v3 & E3 & N3 & _)).
    set_unfold in Hkey.
    destruct Hkey as [-> | [-> | [-> | []]]];
      [rewrite E1 in Hfalse | rewrite E2 in Hfalse | rewrite E3 in Hfalse];
      simpl in Hfalse; congruence.
Qed.

(** X6. [_extract_budget_parameters] returns parameters exactly when
    [income] is present, truthy and converted by [float()] and [expenses] is
    present and truthy; [expenses_dict] is then the value under [expenses]
    as parsed, without any conversion or check of its shape. *)
Theorem budget_extraction `{Builtins}
    (query : string) (fields : gmap string json) (p : BudgetParams.t) :
  _extract_budget_parameters query (FirstChoice (Ok (JObject fields))) = Some p <->
  truthy_converts_to Py.float fields "income" (BudgetParams.income p) /\
  fields !! "expenses" = Some (BudgetParams.expenses_dict p) /\
  Py.truthy (BudgetParams.expenses_dict p) = true.
Proof. apply budget_extracted. Qed.

(** X7. A [null] under any of the eight retirement fields makes
    [_extract_retirement_parameters] return [None]: the default of a field
    stands in for an absent key only. *)
Theorem retirement_null_rejected `{Builtins}
    (query : string) (fields : gmap string json) :
  Forall (fun key =>
            fields !! key = Some JNull ->
            _extract_retirement_parameters query (FirstChoice (Ok (JObject fields))) = None)
    ["current_age"; "retirement_age"; "life_expectancy"; "annual_expenses";
     "inflation_rate"; "current_savings"; "monthly_contribution"; "expected_return"].
Proof.
  repeat constructor; intros Hnull;
    (destruct (_extract_retirement_parameters query (FirstChoice (Ok (JObject fields))))
       as [p |] eqn:Hp; [| reflexivity]);
    apply retirement_extracted in Hp;
    destruct Hp as (C1 & C2 & C3 & C4 & C5 & C6 & C7 & C8);
    rewrite Hnull in *; discriminate.
Qed.

(** ** Investment growth: the yearly snapshots *)

Section InvestmentSnapshots.

Variables (monthly_contribution monthly_rate : float).

Let step := investment_step monthly_contribution monthly_rate.

(** The years of the snapshots taken over [months] are the quotients by 12
    of the months that are multiples of 12; the three lists move together. *)
Lemma snapshot_years (months : list Z) (st : investment_state) :
  let st' := foldl step st months in
  let years := map (fun i => i / 12) (List.filter is_year_end months) in
  map fst (st_balances st') = map fst (st_balances st) ++ years /\
  map fst (st_contributions st') = map fst (st_contributions st) ++ years /\
  map fst (st_interests st') = map fst (st_interests st) ++ years.
Proof.
  revert st. induction months as [| i months IH]; intros st; simpl.
  - now rewrite !app_nil_r.
  - destruct (IH (step st i)) as (Hb & Hc & Hi). rewrite Hb, Hc, Hi.
    unfold step, investment_step, is_year_end. destruct (i mod 12 =? 0); simpl.
    + rewrite !map_app. simpl. now rewrite <- !app_assoc.
    + repeat split; reflexivity.
Qed.

(** A month that ends a year leaves, as last snapshots, the running values. *)
Lemma snapshot_at_year_end (st : investment_state) (i : Z) :
  is_year_end i = true ->
  let st' := step st i in
  last (st_balances st') = Some (i / 12, st_balance st') /\
  last (st_contributions st') = Some (i / 12, st_total_contribution st') /\
  last (st_interests st') = Some (i / 12, st_total_interest st').
Proof.
  unfold is_year_end, step, investment_step. intros ->. simpl.
  now rewrite !last_snoc.
Qed.

End InvestmentSnapshots.

Lemma is_year_end_shift (y k : Z) : is_year_end (12 * y + k) = is_year_end k.
Proof.
  unfold is_year_end. f_equal.
  rewrite Z.add_comm, (Z.mul_comm 12 y). apply Z_mod_plus_full.
Qed.

Lemma year_ends_of_year (y : Z) :
  List.filter is_year_end (seqZ (12 * y + 1) 12) = [12 * (y + 1)].
Proof.
  rewrite <- (fmap_add_seqZ (12 * y) 1 12).
  change (seqZ 1 12) with [1; 2; 3; 4; 5; 6; 7; 8; 9; 10; 11; 12].
  cbn [fmap list_fmap List.filter]. rewrite !is_year_end_shift. cbn.
  f_equal. lia.
Qed.

Lemma year_ends_upto (years : nat) :
  map (fun i => i / 12) (List.filter is_year_end (seqZ 1 (12 * Z.of_nat years)))
  = seqZ 1 (Z.of_nat years).
Proof.
  induction years as [| years IH]; [reflexivity |].
  replace (12 * Z.of_nat (S years)) with (12 * Z.of_nat years + 12) by lia.
  replace (Z.of_nat (S years)) with (Z.of_nat years + 1) by lia.
  rewrite (seqZ_app 1 (12 * Z.of_nat years) 12), (seqZ_app 1 (Z.of_nat years) 1) by lia.
  rewrite List.filter_app, map_app, IH.
  replace (1 + 12 * Z.of_nat years) with (12 * Z.of_nat years + 1) by lia.
  rewrite year_ends_of_year. simpl. f_equal.
  replace (12 * (Z.of_nat years + 1)) with ((Z.of_nat years + 1) * 12) by lia.
  rewrite Z.div_mul by lia.
  unfold seqZ. change (Z.to_nat 1) with 1%nat. cbn. f_equal. lia.
Qed.

Lemma seqZ_nonpos (m n : Z) : n <= 0 -> seqZ m n = [].
Proof. intros Hn. unfold seqZ. replace (Z.to_nat n) with 0%nat by lia. reflexivity. Qed.

Lemma seqZ_last_month (years : Z) :
  1 <= years -> seqZ 1 (years * 12) = seqZ 1 (years * 12 - 1) ++ [years * 12].
Proof.
  intros Hy. replace (years * 12) with ((years * 12 - 1) + 1) at 1 by lia.
  rewrite seqZ_app by lia. f_equal.
  unfold seqZ. change (Z.to_nat 1) with 1%nat. cbn. f_equal. lia.
Qed.

(** X8. [calculate_investment_growth] takes one snapshot per full year: the
    three yearly lists carry the years [1 .. years] in order (they are empty
    when [years] is zero or negative), and for at least one year the last
    snapshot of each list is the value the result reports as final. *)
Theorem investment_yearly_snapshots
    (initial_investment monthly_contribution annual_return : float) (years : Z) :
  exists d,
    calculate_investment_growth initial_investment monthly_contribution annual_return years
      = Success d /\
    map fst (yearly_balances d) = seqZ 1 years /\
    map fst (yearly_contributions d) = seqZ 1 years /\
    map fst (yearly_interests d) = seqZ 1 years /\
    (1 <= years ->
     last (yearly_balances d) = Some (years, final_balance d) /\
     last (yearly_contributions d) = Some (years, total_contributions d) /\
     last (yearly_interests d) = Some (years, investment_total_interest d)).
Proof.
  eexists. split; [reflexivity |]. cbn [yearly_balances yearly_contributions
    yearly_interests final_balance total_contributions investment_total_interest].
  set (rate := (annual_return / 100 / 12)%float).
  set (st0 := {| st_balance := initial_investment;
                 st_total_contribution := initial_investment;
                 st_total_interest := 0%float;
                 st_balances := []; st_contributions := []; st_interests := [] |}).
  assert (Hyears : map (fun i => i / 12) (List.filter is_year_end (seqZ 1 (years * 12)))
                   = seqZ 1 years).
  { destruct (Z_le_gt_dec 0 years) as [Hy | Hy].
    - rewrite <- (Z2Nat.id years Hy), (Z.mul_comm _ 12). apply year_ends_upto.
    - rewrite !seqZ_nonpos by lia. reflexivity. }
  destruct (snapshot_years monthly_contribution rate (seqZ 1 (years * 12)) st0)
    as (Hb & Hc & Hi).
  rewrite Hyears in Hb, Hc, Hi.
  split; [exact Hb |]. split; [exact Hc |]. split; [exact Hi |].
  intros Hy. rewrite seqZ_last_month by exact Hy. rewrite foldl_app. cbn [foldl].
  assert (Hend : is_year_end (years * 12) = true).
  { unfold is_year_end. rewrite Z_mod_mult. reflexivity. }
  destruct (snapshot_at_year_end monthly_contribution rate
              (foldl (investment_step monthly_contribution rate) st0
                 (seqZ 1 (years * 12 - 1))) (years * 12) Hend) as (Lb & Lc & Li).
  rewrite Z.div_mul in Lb, Lc, Li by lia.
  split; [exact Lb |]. split; [exact Lc | exact Li].
Qed.

Lemma contributions_ignore_rate (monthly_contribution rate1 rate2 : float)
    (months : list Z) (st1 st2 : investment_state) :
  st_total_contribution st1 = st_total_contribution st2 ->
  st_contributions st1 = st_contributions st2 ->
  let st1' := foldl (investment_step monthly_contribution rate1) st1 months in
  let st2' := foldl (investment_step monthly_contribution rate2) st2 months in
  st_total_contribution st1' = st_total_contribution st2' /\
  st_contributions st1' = st_contributions st2'.
Proof.
  revert st1 st2. induction months as [| i months IH]; intros st1 st2 Ht Hl; simpl.
  - split; assumption.
  - apply IH; unfold investment_step; destruct (i mod 12 =? 0); simpl; congruence.
Qed.

(** X9. What [calculate_investment_growth] reports as contributed, in total
    and year by year, does not depend on the annual return: it is the
    initial investment plus the monthly contributions, whatever they earn. *)
Theorem investment_contributions_ignore_return
    (initial_investment monthly_contribution return1 return2 : float) (years : Z) :
  exists d1 d2,
    calculate_investment_growth initial_investment monthly_contribution return1 years
      = Success d1 /\
    calculate_investment_growth initial_investment monthly_contribution return2 years
      = Success d2 /\
    total_contributions d1 = total_contributions d2 /\
    yearly_contributions d1 = yearly_contributions d2.
Proof.
  eexists. eexists. split; [reflexivity |]. split; [reflexivity |].
  cbn [total_contributions yearly_contributions].
  apply contributions_ignore_rate; reflexivity.
Qed.

(** ** Retirement needs and loan payment: edge behaviour *)

Lemma negative_not_positive (x : float) : (x <? 0)%float = true -> (0 <? x)%float = false.
Proof.
  rewrite !FloatAxioms.ltb_spec. change (Prim2SF 0) with (S754_zero false).
  destruct (Prim2SF x) as [[|] | [|] | | [|] m e]; cbv; congruence.
Qed.

Lemma opp_of_negative (x : float) : (x <? 0)%float = true -> (- x <? 0)%float = false.
Proof.
  rewrite !FloatAxioms.ltb_spec, FloatAxioms.opp_spec.
  change (Prim2SF 0) with (S754_zero false).
  destruct (Prim2SF x) as [[|] | [|] | | [|] m e]; cbv; congruence.
Qed.

(** X10. In every success result of [calculate_retirement_needs] the two
    year counts are the differences of the ages, [shortfall_or_surplus] is
    never negative (it is the magnitude, [is_surplus] carries the sign), the
    corpus needed is 25 times the future annual expenses, and with a surplus
    the required monthly contribution is the current one. *)
Theorem retirement_result_shape `{Libm}
    (current_age retirement_age life_expectancy : Z)
    (annual_expenses inflation_rate current_savings monthly_contribution
       expected_return : float) (d : retirement_data) :
  calculate_retirement_needs current_age retirement_age life_expectancy annual_expenses
    inflation_rate current_savings monthly_contribution expected_return = Success d ->
  years_to_retirement d = retirement_age - current_age /\
  years_in_retirement d = life_expectancy - retirement_age /\
  (shortfall_or_surplus d <? 0)%float = false /\
  retirement_corpus_needed d = (future_annual_expenses d * 25)%float /\
  total_future_value d
    = (future_value_current_savings d + future_value_contributions d)%float /\
  (is_surplus d = true -> required_monthly_contribution d = monthly_contribution).
Proof.
  unfold calculate_retirement_needs.
  destruct (float_pow (1 + inflation_rate / 100)%float (retirement_age - current_age))
    as [inflation | e]; simpl; [| discriminate].
  destruct (float_pow (1 + expected_return / 100 / 12)%float
              ((retirement_age - current_age) * 12)) as [growth | e]; simpl; [| discriminate].
  destruct (PyFloat.div _ _) as [annuity | e]; simpl; [| discriminate].
  match goal with
  | |- context [(0 <? ?s)%float] => set (shortfall := s)
  end.
  destruct (shortfall <? 0)%float eqn:Hneg.
  - rewrite (negative_not_positive _ Hneg). simpl. intros [= <-]. simpl.
    repeat split; try reflexivity. apply opp_of_negative, Hneg.
  - destruct (0 <? shortfall)%float; simpl.
    + destruct (PyFloat.div _ _) as [extra | e]; simpl; [| discriminate].
      intros [= <-]. simpl. repeat split; try reflexivity; try assumption. discriminate.
    + intros [= <-]. simpl. repeat split; try reflexivity; try assumption.
Qed.

Lemma retirement_result_shape_witness :
  exists d,
    @calculate_retirement_needs example_libm 30 65 90 50000%float 2.5%float 0%float
      500%float 7%float = Success d /\
    years_to_retirement d = 35 /\
    years_in_retirement d = 25 /\
    (shortfall_or_surplus d <? 0)%float = false.
Proof.
  eexists. split; [vm_compute; reflexivity |].
  destruct (@retirement_result_shape example_libm 30 65 90 50000%float 2.5%float 0%float
              500%float 7%float _ eq_refl) as (H1 & H2 & H3 & _).
  split; [exact H1 |]. split; [exact H2 | exact H3].
Defined.

(** X11. A loan over zero years is always an error: with no payment to
    make, the zero-rate branch divides the principal by zero and the
    amortization formula divides by [x ** 0 - 1]; the division raises and
    [calculate_loan_payment] reports it. ([x ** 0] is 1 for every [x].) *)
Theorem zero_year_loan_is_error `{Libm} (principal interest_rate : float) :
  (forall x, float_pow x 0 = Ok 1%float) ->
  calculate_loan_payment principal interest_rate 0 =
  Error "Failed to calculate loan payment: float division by zero".
Proof.
  intros Hpow. unfold calculate_loan_payment, loan_monthly_payment.
  change (0 * 12) with 0.
  destruct (PyFloat.is_zero (interest_rate / 100 / 12)%float).
  - reflexivity.
  - rewrite Hpow. reflexivity.
Qed.

Lemma zero_year_loan_is_error_witness :
  @calculate_loan_payment example_libm 250000%float 6.5%float 0 =
  Error "Failed to calculate loan payment: float division by zero".
Proof.
  apply (@zero_year_loan_is_error example_libm 250000%float 6.5%float).
  intros x. unfold float_pow, example_libm, repeated_product_pow. simpl.
  destruct (PyFloat.is_finite x); reflexivity.
Defined.

(** ** Turn driver: outcomes and transcript *)

(** X12. [process_query] answers with a top-level error exactly when the
    primary call fails: the request raises, or its answer has no choice. The
    error is then decided by the primary reply alone; neither the extraction
    reply nor the narration reply is consulted, and only the user turn is
    added to the transcript. *)
Theorem top_level_error_iff_primary_fails `{Builtins} `{Libm} `{Collaborators}
    (h : list turn) (query : string) (primary : llm_reply string)
    (extraction : llm_reply (exc json)) (followup : llm_reply string) :
  ((exists message,
       (process_query h query primary extraction followup).1 = Ok (ReplyError message))
   <-> is_first_choice primary = false) /\
  (is_first_choice primary = false ->
   process_query h query primary extraction followup =
   (Ok (ReplyError
          match primary with
          | Raises e => "Failed to parse financial query: " +:+ exn_text e
          | _ => "Failed to get response from language model"
          end),
    h ++ [Turn user query])).
Proof.
  unfold process_query, parse_financial_query.
  destruct primary as [e | | response]; simpl.
  - split; [| reflexivity]. split; [reflexivity | intros _; eexists; reflexivity].
  - split; [| reflexivity]. split; [reflexivity | intros _; eexists; reflexivity].
  - split; [| discriminate]. split; [| discriminate]. intros [message Hm].
    destruct (identify_function_call query extraction) as [call |]; [| discriminate Hm].
    destruct (json_dumps (execute call)); [| discriminate Hm].
    destruct followup; discriminate Hm.
Qed.

(** X13. [process_query] has no handler of its own: an exception leaves it
    exactly when a calculator has run and either [json.dumps] refuses its
    result or the narration request raises. Every failure before that point
    is turned into a value. *)
Theorem exception_escapes_iff `{Builtins} `{Libm} `{Collaborators}
    (h : list turn) (query : string) (primary : llm_reply string)
    (extraction : llm_reply (exc json)) (followup : llm_reply string) (e : exn) :
  (process_query h query primary extraction followup).1 = Raise e <->
  exists call,
    is_first_choice primary = true /\
    identify_function_call query extraction = Some call /\
    (json_dumps (execute call) = Raise e \/
     (exists dumped, json_dumps (execute call) = Ok dumped) /\ followup = Raises e).
Proof.
  unfold process_query, parse_financial_query.
  destruct primary as [e0 | | response]; simpl.
  - split; [discriminate | intros (call & [=] & _)].
  - split; [discriminate | intros (call & [=] & _)].
  - destruct (identify_function_call query extraction) as [call |]; simpl.
    + destruct (json_dumps (execute call)) as [dumped | e1] eqn:Hd; simpl.
      * destruct followup as [e2 | | updated]; simpl; split;
          try discriminate;
          try (intros (c & _ & [= <-] & [Hr | [_ Hr]]); congruence).
        intros [= ->]. exists call. repeat split; try reflexivity.
        right. split; [eexists; exact Hd | reflexivity].
      * split.
        -- intros [= ->]. exists call. repeat split; try reflexivity. left. exact Hd.
        -- intros (c & _ & [= <-] & [Hr | [[d Hr] _]]); congruence.
    + split; [discriminate | intros (call & _ & [=] & _)].
Qed.

(** X14. Whatever the three replies are, and whether it returns or raises,
    [process_query] only extends the transcript: it appends the user turn of
    the query and then nothing, or one assistant turn, or one assistant turn
    followed by one system turn; every turn the transcript held before is
    left as it was. *)
Theorem transcript_only_grows `{Builtins} `{Libm} `{Collaborators}
    (h : list turn) (query : string) (primary : llm_reply string)
    (extraction : llm_reply (exc json)) (followup : llm_reply string) :
  exists added,
    (process_query h query primary extraction followup).2 = h ++ Turn user query :: added /\
    (added = [] \/
     (exists response, added = [Turn assistant response]) \/
     (exists response message,
         added = [Turn assistant response; Turn system message])) /\
    (length added <= 2)%nat /\
    Forall (fun t => turn_role t <> user) added /\
    (forall i t, h !! i = Some t ->
                 (process_query h query primary extraction followup).2 !! i = Some t).
Proof.
  assert (Hframe : forall added i t,
             h !! i = Some t -> (h ++ Turn user query :: added) !! i = Some t).
  { intros added i t Hi. apply lookup_app_l_Some, Hi. }
  unfold process_query, parse_financial_query.
  destruct primary as [e0 | | response]; simpl.
  - exists []. split; [reflexivity |]. split; [now left |].
    repeat split; [simpl; lia | constructor | apply Hframe].
  - exists []. split; [reflexivity |]. split; [now left |].
    repeat split; [simpl; lia | constructor | apply Hframe].
  - destruct (identify_function_call query extraction) as [call |]; simpl.
    + destruct (json_dumps (execute call)) as [dumped | e1]; simpl.
      * destruct followup as [e2 | | updated]; simpl;
          rewrite <- !app_assoc; cbn [app]; try rewrite update_after_turn;
          (eexists [_; _]; split; [reflexivity |];
           split; [right; right; eexists; eexists; reflexivity |];
           split; [simpl; lia |];
           split; [repeat constructor; discriminate | apply Hframe]).
      * rewrite <- !app_assoc. cbn [app].
        eexists [_]; split; [reflexivity |].
        split; [right; left; eexists; reflexivity |]. split; [simpl; lia |].
        split; [repeat constructor; discriminate | apply Hframe].
    + rewrite <- !app_assoc. cbn [app].
      eexists [_]; split; [reflexivity |].
      split; [right; left; eexists; reflexivity |]. split; [simpl; lia |].
      split; [repeat constructor; discriminate | apply Hframe].
Qed.

(** ** From the reply to the result: how the stages compose *)

Lemma zero_return_fails `{Libm}
    (current_age retirement_age life_expectancy : Z)
    (annual_expenses inflation_rate current_savings monthly_contribution
       expected_return : float) :
  PyFloat.is_zero expected_return = true ->
  exists message,
    calculate_retirement_needs current_age retirement_age life_expectancy annual_expenses
      inflation_rate current_savings monthly_contribution expected_return = Error message.
Proof.
  intros Hzero. apply FloatFacts.monthly_rate_of_zero in Hzero.
  unfold calculate_retirement_needs.
  destruct (float_pow (1 + inflation_rate / 100)%float (retirement_age - current_age));
    simpl; [| eexists; reflexivity].
  destruct (float_pow (1 + expected_return / 100 / 12)%float
              ((retirement_age - current_age) * 12)); simpl; [| eexists; reflexivity].
  rewrite (div_by_zero_raises _ _ Hzero). eexists. reflexivity.
Qed.

Lemma loan_falsy_field `{Builtins} (query : string) (fields : gmap string json) :
  Py.truthy (default JNull (fields !! "interest_rate")) = false ->
  _extract_loan_parameters query (FirstChoice (Ok (JObject fields))) = None.
Proof.
  intros Hfalse.
  destruct (_extract_loan_parameters query (FirstChoice (Ok (JObject fields))))
    as [p |] eqn:Hp; [| reflexivity].
  apply loan_extracted_truthy in Hp. destruct Hp as (_ & (v & E & N & _) & _).
  rewrite E in Hfalse. simpl in Hfalse. congruence.
Qed.

(** X15. A calculator that fails does not fail the turn. When the router
    selects the retirement calculator with parameters whose expected return
    is zero, and the narration call returns a choice, [process_query] answers
    with a success result that carries the narration and, as function
    result, the error result of the calculator. *)
Theorem calculator_error_is_narrated `{Builtins} `{Libm} `{Collaborators}
    (h : list turn) (query response updated dumped : string)
    (extraction : llm_reply (exc json)) (p : RetirementParams.t) :
  identify_function_call query extraction = Some (Call_calculate_retirement_needs p) ->
  PyFloat.is_zero (RetirementParams.expected_return p) = true ->
  json_dumps (execute (Call_calculate_retirement_needs p)) = Ok dumped ->
  exists message,
    process_query h query (FirstChoice response) extraction (FirstChoice updated) =
    (Ok (Reply query updated (Some (Result_calculate_retirement_needs (Error message)))),
     h ++ [Turn user query; Turn assistant updated;
           Turn system ("Function calculate_retirement_needs returned: " +:+ dumped)]).
Proof.
  intros Hcall Hzero Hdumps.
  destruct (zero_return_fails (RetirementParams.current_age p)
              (RetirementParams.retirement_age p) (RetirementParams.life_expectancy p)
              (RetirementParams.annual_expenses p) (RetirementParams.inflation_rate p)
              (RetirementParams.current_savings p) (RetirementParams.monthly_contribution p)
              (RetirementParams.expected_return p) Hzero) as [message Hmessage].
  exists message. unfold process_query, parse_financial_query.
  rewrite Hcall, Hdumps. rewrite <- !app_assoc. cbn [app].
  rewrite update_after_turn. cbn [execute]. rewrite Hmessage. reflexivity.
Qed.

Lemma calculator_error_is_narrated_witness :
  exists message,
    example_process_query example_history "When can I retire?"
      (FirstChoice "Let me look at your plan.") (FirstChoice (Ok example_zero_return_reply))
      (FirstChoice "The plan could not be computed.") =
    (Ok (Reply "When can I retire?" "The plan could not be computed."
           (Some (Result_calculate_retirement_needs (Error message)))),
     example_history ++
     [Turn user "When can I retire?"; Turn assistant "The plan could not be computed.";
      Turn system "Function calculate_retirement_needs returned: {...}"]).
Proof.
  apply (@calculator_error_is_narrated example_builtins example_libm example_collaborators
           example_history "When can I retire?" "Let me look at your plan."
           "The plan could not be computed." "{...}"
           (FirstChoice (Ok example_zero_return_reply))
           {| RetirementParams.current_age := 40;
              RetirementParams.retirement_age := 65;
              RetirementParams.life_expectancy := 90;
              RetirementParams.annual_expenses := 50000%float;
              RetirementParams.inflation_rate := 2.5%float;
              RetirementParams.current_savings := 0%float;
              RetirementParams.monthly_contribution := 500%float;
              RetirementParams.expected_return := 0%float |});
    vm_compute; reflexivity.
Defined.

(** X16. A loan at a zero interest rate never reaches the loan calculator.
    When the loan domain is the one the keywords select and the parsed
    object holds a zero (or [null], or no) [interest_rate], the turn ends
    with the primary response and no function result; the narration call is
    not made and the transcript gains the user and assistant turns only. *)
Theorem zero_rate_loan_not_calculated `{Builtins} `{Libm} `{Collaborators}
    (h : list turn) (query response : string) (fields : gmap string json)
    (followup : llm_reply string) :
  first_keyword_domain query = Some Loan ->
  Py.truthy (default JNull (fields !! "interest_rate")) = false ->
  process_query h query (FirstChoice response) (FirstChoice (Ok (JObject fields))) followup =
  (Ok (Reply query response None), h ++ [Turn user query; Turn assistant response]).
Proof.
  intros Hdomain Hfalse. unfold process_query, parse_financial_query, identify_function_call.
  unfold first_keyword_domain in Hdomain. cbn [List.find priority_order domain_keywords] in Hdomain.
  destruct (any_keyword query stock_keywords); [discriminate Hdomain |].
  destruct (any_keyword query loan_keywords).
  - rewrite (loan_falsy_field query fields Hfalse). rewrite <- !app_assoc. reflexivity.
  - destruct (any_keyword query investment_keywords); [discriminate Hdomain |].
    destruct (any_keyword query retirement_keywords); [discriminate Hdomain |].
    destruct (any_keyword query budget_keywords); discriminate Hdomain.
Qed.

Lemma zero_rate_loan_not_calculated_witness :
  example_process_query [] "What would my loan cost?" (FirstChoice "It depends on the rate.")
    (FirstChoice (Ok (JObject example_zero_rate_loan_reply))) NoChoices =
  (Ok (Reply "What would my loan cost?" "It depends on the rate." None),
   [] ++ [Turn user "What would my loan cost?"; Turn assistant "It depends on the rate."]).
Proof.
  apply (@zero_rate_loan_not_calculated example_builtins example_libm example_collaborators);
    vm_compute; reflexivity.
Defined.

(** ** The in-place update of the narration *)

Lemma update_at (h : list turn) (i : nat) (t : turn) (updated : string) :
  h !! i = Some t -> turn_role t = assistant ->
  (forall j t', (i < j)%nat -> h !! j = Some t' -> turn_role t' <> assistant) ->
  update_last_assistant h updated = <[i := Turn assistant updated]> h.
Proof.
  intros Hi Hrole Hafter.
  destruct (update_last_assistant_spec h updated)
    as [(i0 & t0 & H0 & R0 & A0 & E0 & _) | (Hnone & _)].
  - destruct (lt_eq_lt_dec i0 i) as [[Hlt | ->] | Hgt].
    + exfalso. exact (A0 i t Hlt Hi Hrole).
    + exact E0.
    + exfalso. exact (Hafter i0 t0 Hgt H0 R0).
  - exfalso. exact (Hnone i t Hi Hrole).
Qed.

Lemma update_none (h : list turn) (updated : string) :
  (forall j t, h !! j = Some t -> turn_role t <> assistant) ->
  update_last_assistant h updated = h ++ [Turn assistant updated].
Proof.
  intros Hnone.
  destruct (update_last_assistant_spec h updated)
    as [(i0 & t0 & H0 & R0 & _) | (_ & E)]; [| exact E].
  exfalso. exact (Hnone i0 t0 H0 R0).
Qed.

(** X17. Narrating twice is narrating once with the later text: a second
    update overwrites the turn the first one wrote, so the transcript never
    gains more than one assistant turn from repeated updates, and the number
    of turns changes by at most one. *)
Theorem update_last_assistant_twice (h : list turn) (first second : string) :
  update_last_assistant (update_last_assistant h first) second
    = update_last_assistant h second /\
  (length h <= length (update_last_assistant h first) <= length h + 1)%nat.
Proof.
  destruct (update_last_assistant_spec h first)
    as [(i & t & Hi & Hrole & Hafter & E & _) | (Hnone & E)]; rewrite E.
  - pose proof (lookup_lt_Some _ _ _ Hi) as Hlt. split.
    + rewrite (update_at (<[i := Turn assistant first]> h) i (Turn assistant first) second).
      * rewrite list_insert_insert_eq. symmetry. now apply (update_at h i t).
      * now apply list_lookup_insert_eq.
      * reflexivity.
      * intros j t' Hj Hjt. rewrite list_lookup_insert_ne in Hjt by lia.
        now apply (Hafter j t').
    + rewrite length_insert. lia.
  - split.
    + rewrite (update_at (h ++ [Turn assistant first]) (length h) (Turn assistant first)
                 second).
      * rewrite insert_app_r_alt by lia. rewrite Nat.sub_diag. simpl.
        symmetry. now apply update_none.
      * now rewrite list_lookup_middle.
      * reflexivity.
      * intros j t' Hj Hjt. apply lookup_lt_Some in Hjt.
        rewrite length_app in Hjt. simpl in Hjt. lia.
    + rewrite length_app. simpl. lia.
Qed.

(** ** Market data *)

Section MarketFacts.

Import Market.
Context `{Provider}.

(** X18. A successful lookup always reports the same fourteen quote fields,
    in the same order. A field the provider does not give is reported as the
    text [N/A]; the current price is the provider's [currentPrice] whenever
    that key is present (be it [null]), and its [regularMarketPrice]
    otherwise. The history is passed on as the provider gave it. *)
Theorem stock_quote_fields (ticker period : string) (d : stock_data history_dict) :
  Market.get_stock_data ticker period = Success d ->
  exists info,
    fetch ticker period = Ok (info, historical_data d) /\
    map fst (quote d) =
      ["name"; "sector"; "current_price"; "previous_close"; "open"; "day_low"; "day_high";
       "52_week_low"; "52_week_high"; "volume"; "avg_volume"; "market_cap"; "pe_ratio";
       "dividend_yield"] /\
    Forall (fun field => lookup_quote field.1 (quote d) = Some (info_get info field.2))
      plain_fields /\
    lookup_quote "current_price" (quote d) =
      Some match info !! "currentPrice" with
           | Some price => price
           | None => info_get info "regularMarketPrice"
           end.
Proof.
  unfold Market.get_stock_data.
  destruct (fetch ticker period) as [[info history] | e]; simpl; [| discriminate].
  destruct (if is_not_na (info_get info "dividendYield")
            then times_100 (info_get info "dividendYield")
            else Ok (JString "N/A")) as [dividend | e]; simpl; [| discriminate].
  intros [= <-]. exists info. simpl.
  split; [reflexivity |]. split; [reflexivity |].
  split; [repeat constructor |].
  destruct (info !! "currentPrice"); reflexivity.
Qed.

(** X19. The lookup never raises: a failure of the provider is reported as
    an error result that quotes the exception. Of the dividend yield, an
    absent one is reported as [N/A] and a number as 100 times the number; a
    [null] one makes the whole lookup an error result, whatever else the
    provider gave. *)
Theorem stock_dividend_yield (ticker period : string) :
  match fetch ticker period with
  | Raise e =>
      Market.get_stock_data ticker period =
      Error ("Failed to retrieve stock data: " +:+ exn_text e)
  | Ok (info, history) =>
      (info !! "dividendYield" = None ->
       exists d, Market.get_stock_data ticker period = Success d /\
                 lookup_quote "dividend_yield" (quote d) = Some (JString "N/A")) /\
      (forall x, info !! "dividendYield" = Some (JFloat x) ->
       exists d, Market.get_stock_data ticker period = Success d /\
                 lookup_quote "dividend_yield" (quote d) = Some (JFloat (x * 100)%float)) /\
      (forall n, info !! "dividendYield" = Some (JInt n) ->
       exists d, Market.get_stock_data ticker period = Success d /\
                 lookup_quote "dividend_yield" (quote d) = Some (JInt (n * 100))) /\
      (info !! "dividendYield" = Some JNull ->
       Market.get_stock_data ticker period =
       Error ("Failed to retrieve stock data: " +:+
              "unsupported operand type(s) for *: 'NoneType' and 'int'"))
  end.
Proof.
  unfold Market.get_stock_data, info_get.
  destruct (fetch ticker period) as [[info history] | e]; simpl; [| reflexivity].
  repeat split.
  - intros ->. simpl. eexists. split; reflexivity.
  - intros x ->. simpl. eexists. split; reflexivity.
  - intros n ->. simpl. eexists. split; reflexivity.
  - intros ->. reflexivity.
Qed.

End MarketFacts.

Lemma stock_quote_fields_witness :
  exists d,
    @Market.get_stock_data Market.example_provider "AAPL" "1d" = Success d /\
    exists info,
      @Market.fetch Market.example_provider "AAPL" "1d" = Ok (info, Market.historical_data d) /\
      map fst (Market.quote d) =
        ["name"; "sector"; "current_price"; "previous_close"; "open"; "day_low"; "day_high";
         "52_week_low"; "52_week_high"; "volume"; "avg_volume"; "market_cap"; "pe_ratio";
         "dividend_yield"] /\
      Forall (fun field =>
                Market.lookup_quote field.1 (Market.quote d)
                = Some (Market.info_get info field.2))
        Market.plain_fields /\
      Market.lookup_quote "current_price" (Market.quote d) =
        Some match info !! "currentPrice" with
             | Some price => price
             | None => Market.info_get info "regularMarketPrice"
             end.
Proof.
  eexists. split; [vm_compute; reflexivity |].
  apply (@stock_quote_fields Market.example_provider "AAPL" "1d"). reflexivity.
Defined.

(** The two failures of the example provider, as [get_stock_data] reports
    them. *)
Lemma stock_lookup_failures :
  @Market.get_stock_data Market.example_provider "TSLA" "1d" =
    Error "Failed to retrieve stock data: unsupported operand type(s) for *: 'NoneType' and 'int'" /\
  @Market.get_stock_data Market.example_provider "WHAT" "1d" =
    Error "Failed to retrieve stock data: 404 Client Error: Not Found".
Proof. split; vm_compute; reflexivity. Qed.

(** ** Degrading to a plain reply *)



